(** * AndroMoney2PTA: the AndroMoney CSV export to plain-text ledger converter

    A shallow embedding of [AndroMoney2PTA.py]: the record classifier
    ([AndroMoneyReader.__next__]), the ledger formatter ([LedgerWriter]) and
    the driver loop ([generateLedger]), followed by the properties the
    specification states about them.

    Modelling conventions.
    - A CSV row is a [list string]; [row[i]] is list lookup and raises
      [IndexError] out of range.
    - Python exceptions are the constructors of [exn]; a computation that may
      raise lives in [py].  [AssertionError] is the specification's
      DataIntegrityError, [ValueError] and [IndexError] its ParseError,
      [NotImplementedError] its UnsupportedFeatureError.
    - Text is ASCII: the non-ASCII digits and blanks that Python's [int],
      [float], [split] and [strptime] also accept are outside the model.
    - The interpreter's recursion limit is the budget of nested calls of
      [AndroMoneyReader.next_within] and of [generateLedger_within]:
      [__next__] and [generateLedger] give what the method and the run do
      when that limit is not reached.
    - The output file is the string written so far. *)

From Stdlib Require Import ZArith Lia List Ascii String Bool DecimalString.
From stdpp Require Import base option list strings gmap.

Local Open Scope string_scope.
Local Open Scope Z_scope.

(** ** Text primitives *)

(** [c.isspace()] on ASCII: tab, line feed, vertical tab, form feed,
    carriage return, the four separators 0x1c-0x1f and the space. *)
Definition isspace (c : ascii) : bool :=
  let n := nat_of_ascii c in
  ((9 <=? n)%nat && (n <=? 13)%nat) || ((28 <=? n)%nat && (n <=? 32)%nat).

(** The blanks that [int] and [float] drop around an ASCII literal: the
    separators 0x1c-0x1f are not among them. *)
Definition literal_space (c : ascii) : bool :=
  let n := nat_of_ascii c in
  ((9 <=? n)%nat && (n <=? 13)%nat) || (n =? 32)%nat.

(** The value of a decimal digit character. *)
Definition digit_of (c : ascii) : option Z :=
  let n := nat_of_ascii c in
  if ((48 <=? n)%nat && (n <=? 57)%nat)%bool then Some (Z.of_nat n - 48) else None.

(** ASCII lower-casing of one character and of a string. *)
Definition lower (c : ascii) : ascii :=
  let n := nat_of_ascii c in
  if ((65 <=? n)%nat && (n <=? 90)%nat)%bool then ascii_of_nat (n + 32) else c.

Fixpoint lower_str (s : string) : string :=
  match s with
  | EmptyString => EmptyString
  | String c s' => String (lower c) (lower_str s')
  end.

Fixpoint lstrip (s : string) : string :=
  match s with
  | String c s' => if literal_space c then lstrip s' else s
  | EmptyString => EmptyString
  end.

(** [rstrip] drops the blanks at the end: a blank is kept only when something
    that is kept follows it. *)
Fixpoint rstrip (s : string) : string :=
  match s with
  | EmptyString => EmptyString
  | String c s' =>
      match rstrip s' with
      | EmptyString => if literal_space c then EmptyString else String c EmptyString
      | t => String c t
      end
  end.

(** The literal of [int(s)] and [float(s)] without the blanks around it. *)
Definition strip (s : string) : string := rstrip (lstrip s).

(** [sep.join(parts)] *)
Fixpoint join (sep : string) (parts : list string) : string :=
  match parts with
  | [] => EmptyString
  | [p] => p
  | p :: ps => p +:+ sep +:+ join sep ps
  end.

(** [s.split()]: the maximal runs of non-blank characters.  [cur] is the run
    being read, in reverse. *)
Fixpoint split_ws_aux (cur : list ascii) (s : string) : list string :=
  let flush := match cur with [] => [] | _ => [string_of_list_ascii (rev cur)] end in
  match s with
  | EmptyString => flush
  | String c s' =>
      if isspace c then flush ++ split_ws_aux [] s'
      else split_ws_aux (c :: cur) s'
  end.

Definition split_ws (s : string) : list string := split_ws_aux [] s.

(** [s.split(sep)] for a one-character separator: empty pieces are kept. *)
Fixpoint split_on_aux (sep : ascii) (cur : list ascii) (s : string) : list string :=
  match s with
  | EmptyString => [string_of_list_ascii (rev cur)]
  | String c s' =>
      if Ascii.eqb c sep then string_of_list_ascii (rev cur) :: split_on_aux sep [] s'
      else split_on_aux sep (c :: cur) s'
  end.

Definition split_on (sep : ascii) (s : string) : list string := split_on_aux sep [] s.

(** [" " * n] and friends. *)
Fixpoint repeat_char (c : ascii) (n : nat) : string :=
  match n with
  | O => EmptyString
  | S n' => String c (repeat_char c n')
  end.

(** [s.zfill(width)]: zeros are added on the left, after a leading sign. *)
Definition zfill (width : nat) (s : string) : string :=
  let pad := repeat_char "0" (width - String.length s) in
  match s with
  | String c s' =>
      if (Ascii.eqb c "+" || Ascii.eqb c "-")%bool then String c (pad +:+ s')
      else pad +:+ s
  | EmptyString => pad
  end.

(** [str(n)] for an integer. *)
Definition str_of_Z (z : Z) : string :=
  DecimalString.NilZero.string_of_int (Z.to_int z).

(** A non-negative number in at least [width] digits: [%02d]. *)
Definition pad_num (width : nat) (z : Z) : string :=
  let d := str_of_Z z in
  repeat_char "0" (width - String.length d) +:+ d.

(** ** Values, exceptions and the error monad *)

(** [datetime.datetime]; the formats of this program have no seconds, so the
    second is always zero and is left out. *)
Record datetime := mk_datetime {
  year : Z; month : Z; day : Z; hour : Z; minute : Z
}.

(** The dictionary [result] built by [AndroMoneyReader.__next__], one field per
    key.  The key ['sub_category'] is removed before the dictionary is
    returned, so its field is optional. *)
Module result.
Record t := mk {
  id : Z;
  currency : string;
  amount : string;
  category : string;
  sub_category : option string;
  from_account : string;
  to_account : string;
  remark : string;
  periodic : string;
  project : string;
  payee : string;
  uid : string;
  time : datetime;
  status : option Z
}.

Definition set_payee (v : string) (r : t) : t :=
  mk (id r) (currency r) (amount r) (category r) (sub_category r) (from_account r)
     (to_account r) (remark r) (periodic r) (project r) v (uid r) (time r) (status r).
Definition set_time (v : datetime) (r : t) : t :=
  mk (id r) (currency r) (amount r) (category r) (sub_category r) (from_account r)
     (to_account r) (remark r) (periodic r) (project r) (payee r) (uid r) v (status r).
Definition set_from_account (v : string) (r : t) : t :=
  mk (id r) (currency r) (amount r) (category r) (sub_category r) v
     (to_account r) (remark r) (periodic r) (project r) (payee r) (uid r) (time r) (status r).
Definition set_to_account (v : string) (r : t) : t :=
  mk (id r) (currency r) (amount r) (category r) (sub_category r) (from_account r)
     v (remark r) (periodic r) (project r) (payee r) (uid r) (time r) (status r).
Definition set_category (v : string) (r : t) : t :=
  mk (id r) (currency r) (amount r) v (sub_category r) (from_account r)
     (to_account r) (remark r) (periodic r) (project r) (payee r) (uid r) (time r) (status r).
(** [del result['sub_category']] *)
Definition del_sub_category (r : t) : t :=
  mk (id r) (currency r) (amount r) (category r) None (from_account r)
     (to_account r) (remark r) (periodic r) (project r) (payee r) (uid r) (time r) (status r).
End result.

(** Python exceptions.  An [AssertionError] carries the dictionary that the
    message [f'{result} has ...'] prints and the text that follows it. *)
Inductive exn :=
| StopIteration
| IndexError
| ValueError (what : string)
| AssertionError (r : result.t) (msg : string)
| KeyError (key : string)
| NotImplementedError (msg : string)
| AttributeError (attr : string).

Inductive py (A : Type) : Type :=
| Return (a : A)
| Raise (e : exn).
Arguments Return {A} a.
Arguments Raise {A} e.

#[global] Instance py_ret : MRet py := λ A a, Return a.
#[global] Instance py_bind : MBind py :=
  λ A B f m, match m with Return a => f a | Raise e => Raise e end.

(** [row[i]] *)
Definition getitem (row : list string) (i : nat) : py string :=
  match row !! i with
  | Some s => Return s
  | None => Raise IndexError
  end.

(** ** [int(s)] *)

(** The rest of a [digitpart]: digits, each optionally preceded by one
    underscore.  Returns the value, the number of digits and what is left. *)
Fixpoint digitpart_rest (v : Z) (n : nat) (s : string) : Z * nat * string :=
  match s with
  | EmptyString => (v, n, s)
  | String c s' =>
      match digit_of c with
      | Some d => digitpart_rest (10 * v + d) (S n) s'
      | None =>
          if Ascii.eqb c "_" then
            match s' with
            | String c' s'' =>
                match digit_of c' with
                | Some d => digitpart_rest (10 * v + d) (S n) s''
                | None => (v, n, s)
                end
            | EmptyString => (v, n, s)
            end
          else (v, n, s)
      end
  end.

(** [digitpart ::= digit (["_"] digit)*] at the start of [s]. *)
Definition digitpart (s : string) : option (Z * nat * string) :=
  match s with
  | String c s' =>
      match digit_of c with
      | Some d => Some (digitpart_rest d 1 s')
      | None => None
      end
  | EmptyString => None
  end.

(** An optional sign: [true] for a minus. *)
Definition sign (s : string) : bool * string :=
  match s with
  | String c s' =>
      if Ascii.eqb c "-" then (true, s')
      else if Ascii.eqb c "+" then (false, s')
      else (false, s)
  | EmptyString => (false, s)
  end.

(** [int(s)] in base ten: surrounding blanks, a sign, digits with single
    underscores between them, and no more than 4300 digits, the limit that
    CPython sets by default on the conversion of a string to an integer. *)
Definition int (s : string) : py Z :=
  let '(neg, body) := sign (strip s) in
  match digitpart body with
  | Some (v, n, EmptyString) =>
      if 4300 <? Z.of_nat n then Raise (ValueError "int")
      else Return (if neg then - v else v)
  | _ => Raise (ValueError "int")
  end.

(** ** [float(s)] and the comparison with [1e-6] *)

(** What [float(s)] reads: not a number, an infinity, or the decimal
    [(-1)^negative * m * 10^e] with [0 <= m], which [float] then rounds to the
    nearest binary64 number, ties to even. *)
Inductive pyfloat :=
| nan
| inf (negative : bool)
| decimal (negative : bool) (m : Z) (e : Z).

(** [exponent ::= ("e" | "E") [sign] digitpart]; absent when [s] does not start
    with the letter, an error when the letter is not followed by a number. *)
Definition exponent (s : string) : option (Z * string) :=
  match s with
  | String c s' =>
      if Ascii.eqb (lower c) "e" then
        let '(neg, body) := sign s' in
        match digitpart body with
        | Some (v, _, rest) => Some (if neg then - v else v, rest)
        | None => None
        end
      else Some (0, s)
  | EmptyString => Some (0, s)
  end.

(** [number ::= [digitpart] "." digitpart | digitpart ["."]]: the digits read
    as one integer, the number of them after the point, and the rest. *)
Definition number (s : string) : option (Z * nat * string) :=
  match digitpart s with
  | Some (v, _, String c r) =>
      if Ascii.eqb c "." then
        match digitpart r with
        | Some (f, k, r') => Some (v * 10 ^ Z.of_nat k + f, k, r')
        | None => Some (v, O, r)
        end
      else Some (v, O, String c r)
  | Some (v, _, EmptyString) => Some (v, O, EmptyString)
  | None =>
      match s with
      | String c r =>
          if Ascii.eqb c "." then
            match digitpart r with
            | Some (f, k, r') => Some (f, k, r')
            | None => None
            end
          else None
      | EmptyString => None
      end
  end.

Definition float (s : string) : py pyfloat :=
  let '(neg, body) := sign (strip s) in
  let word := lower_str body in
  if String.eqb word "inf" || String.eqb word "infinity" then Return (inf neg)
  else if String.eqb word "nan" then Return nan
  else
    match number body with
    | Some (m, k, rest) =>
        match exponent rest with
        | Some (e, EmptyString) => Return (decimal neg m (e - Z.of_nat k))
        | _ => Raise (ValueError "float")
        end
    | None => Raise (ValueError "float")
    end.

(** [x <= 1e-6] for [x = float(s)].  The binary64 number written [1e-6] is
    [4722366482869645 * 2^-72]; its significand is odd, so a real number rounds
    to it or below exactly when it lies strictly under the midpoint
    [9444732965739291 * 2^-73] to the next binary64 number.  Comparisons with
    [nan] are false. *)
Definition le_1e_6 (x : pyfloat) : bool :=
  match x with
  | nan => false
  | inf negative => negative
  | decimal true _ _ => true
  | decimal false m e =>
      if 0 <=? e then m * 10 ^ e * 2 ^ 73 <? 9444732965739291
      else m * 2 ^ 73 <? 9444732965739291 * 10 ^ (- e)
  end.

(** ** [datetime.strptime] and [strftime] *)

(** The regular expression that [strptime] compiles from ['%Y%m%d%H%M'] is
    matched by backtracking.  Each directive is modelled by the list of its
    possible matches at the start of the text, in the order the matcher tries
    them, as pairs of the number read and the text left. *)
Definition two_digits (ok : Z → Z → bool) (s : string) : list (Z * string) :=
  match s with
  | String a (String b r) =>
      match digit_of a, digit_of b with
      | Some x, Some y => if ok x y then [(10 * x + y, r)] else []
      | _, _ => []
      end
  | _ => []
  end.

Definition one_digit (ok : Z → bool) (s : string) : list (Z * string) :=
  match s with
  | String a r =>
      match digit_of a with
      | Some x => if ok x then [(x, r)] else []
      | None => []
      end
  | _ => []
  end.

(** [%Y]: [\d\d\d\d] *)
Definition re_Y (s : string) : list (Z * string) :=
  match s with
  | String a (String b (String c (String d r))) =>
      match digit_of a, digit_of b, digit_of c, digit_of d with
      | Some w, Some x, Some y, Some z => [(1000 * w + 100 * x + 10 * y + z, r)]
      | _, _, _, _ => []
      end
  | _ => []
  end.

(** [%m]: [1[0-2]|0[1-9]|[1-9]] *)
Definition re_m (s : string) : list (Z * string) :=
  two_digits (λ x y, (x =? 1) && (y <=? 2)) s
  ++ two_digits (λ x y, (x =? 0) && (1 <=? y)) s
  ++ one_digit (λ x, 1 <=? x) s.

(** [%d]: [3[0-1]|[1-2]\d|0[1-9]|[1-9]| [1-9]] *)
Definition re_d (s : string) : list (Z * string) :=
  two_digits (λ x y, (x =? 3) && (y <=? 1)) s
  ++ two_digits (λ x y, (1 <=? x) && (x <=? 2)) s
  ++ two_digits (λ x y, (x =? 0) && (1 <=? y)) s
  ++ one_digit (λ x, 1 <=? x) s
  ++ match s with
     | String c r => if Ascii.eqb c " " then one_digit (λ x, 1 <=? x) r else []
     | EmptyString => []
     end.

(** [%H]: [2[0-3]|[0-1]\d|\d] *)
Definition re_H (s : string) : list (Z * string) :=
  two_digits (λ x y, (x =? 2) && (y <=? 3)) s
  ++ two_digits (λ x y, x <=? 1) s
  ++ one_digit (λ _, true) s.

(** [%M]: [[0-5]\d|\d] *)
Definition re_M (s : string) : list (Z * string) :=
  two_digits (λ x y, x <=? 5) s
  ++ one_digit (λ _, true) s.

(** All the matches of the whole expression, the one the matcher finds
    first. *)
Definition re_YmdHM (s : string) : list (datetime * string) :=
  '(y, s1) ← re_Y s;
  '(m, s2) ← re_m s1;
  '(d, s3) ← re_d s2;
  '(H, s4) ← re_H s3;
  '(M, s5) ← re_M s4;
  [(mk_datetime y m d H M, s5)].

Definition is_leap (y : Z) : bool :=
  (y mod 4 =? 0) && (negb (y mod 100 =? 0) || (y mod 400 =? 0)).

Definition days_in_month (y m : Z) : Z :=
  if m =? 2 then (if is_leap y then 29 else 28)
  else if (m =? 4) || (m =? 6) || (m =? 9) || (m =? 11) then 30
  else 31.

(** The check made when the date is built: years 1 to 9999 and a day that
    the month has. *)
Definition valid_date (t : datetime) : bool :=
  (1 <=? year t) && (year t <=? 9999) && (1 <=? month t) && (month t <=? 12)
  && (1 <=? day t) && (day t <=? days_in_month (year t) (month t)).

(** [datetime.datetime.strptime(s, '%Y%m%d%H%M')]: the first match must reach
    the end of the text and give a date that exists. *)
Definition strptime_YmdHM (s : string) : py datetime :=
  match re_YmdHM s with
  | (t, EmptyString) :: _ =>
      if valid_date t then Return t else Raise (ValueError "strptime")
  | _ => Raise (ValueError "strptime")
  end.

(** [datetime.datetime.strptime(s, '%Y%m%d')], used for [--init_date]. *)
Definition strptime_Ymd (s : string) : py datetime :=
  match ('(y, s1) ← re_Y s; '(m, s2) ← re_m s1; '(d, s3) ← re_d s2;
         [(mk_datetime y m d 0 0, s3)]) with
  | (t, EmptyString) :: _ =>
      if valid_date t then Return t else Raise (ValueError "strptime")
  | _ => Raise (ValueError "strptime")
  end.

(** [t.strftime("%Y-%m-%d")].  The year is printed by the C library, which
    on Linux does not pad it: the year 999 comes out as [999]. *)
Definition strftime_Y_m_d (t : datetime) : string :=
  str_of_Z (year t) +:+ "-" +:+ pad_num 2 (month t) +:+ "-" +:+ pad_num 2 (day t).

(** [t.strftime('%H%M')] *)
Definition strftime_HM (t : datetime) : string :=
  pad_num 2 (hour t) +:+ pad_num 2 (minute t).

(** The line feed that Python writes as a backslash followed by [n]. *)
Definition LF : string := String "010" EmptyString.

(** ** The record classifier: [class AndroMoneyReader] *)

Module AndroMoneyReader.

Definition FROM_ACCOUNT_TYPE : gmap string string :=
  {[ "SYSTEM" := "Equity"; "Transfer" := "Asset";
     "Income" := "Income"; "Expense" := "Asset" ]}.

Definition TO_ACCOUNT_TYPE : gmap string string :=
  {[ "SYSTEM" := "Asset"; "Transfer" := "Asset";
     "Income" := "Asset"; "Expense" := "Expenses" ]}.

(** The object: the row iterator [reader], here the rows it has yet to
    give, and the running date [curr_date]. *)
Record t := mk {
  reader : list (list string);
  curr_date : datetime
}.

Definition __init__ (reader : list (list string)) (init_date : datetime) : t :=
  mk reader init_date.

(** The dictionary display that builds [result] from the row, its items
    evaluated in the order they are written. *)
Definition parse (row : list string) : py result.t :=
  f0 ← getitem row 0;
  id ← int f0;
  currency ← getitem row 1;
  amount ← getitem row 2;
  category ← getitem row 3;
  sub_category ← getitem row 4;
  from_account ← getitem row 6;
  to_account ← getitem row 7;
  remark ← getitem row 8;
  periodic ← getitem row 9;
  project ← getitem row 10;
  payee ← getitem row 11;
  uid ← getitem row 12;
  f5 ← getitem row 5;
  f13 ← getitem row 13;
  time ← strptime_YmdHM (f5 +:+ zfill 4 f13);
  f14 ← getitem row 14;
  status ← (if String.eqb f14 "" then Return None
            else s ← int f14; Return (Some s));
  Return (result.mk id currency amount category (Some sub_category) from_account
                    to_account remark periodic project payee uid time status).

(** [result['status'] in [None, 0, 1]] *)
Definition status_ok (status : option Z) : bool :=
  match status with
  | None => true
  | Some s => (s =? 0) || (s =? 1)
  end.

(** [str(result['status'])] inside the assertion message. *)
Definition str_status (status : option Z) : string :=
  match status with
  | None => "None"
  | Some s => str_of_Z s
  end.

(** What the body of [__next__] does with the row it has read: return a
    dictionary and leave [curr_date] at the given value, call itself again,
    or raise. *)
Inductive step :=
| Yield (result : result.t) (curr_date : datetime)
| Again
| Fail (e : exn).

(** The body of [__next__] after [row = next(self.reader)], up to the
    recursive call. *)
Definition body (curr_date : datetime) (row : list string) : step :=
  match parse row with
  | Raise e => Fail e
  | Return result =>
      if negb (status_ok (result.status result)) then
        Fail (AssertionError result (" has status " +:+ str_status (result.status result)))
      else
        let sub_category := default "" (result.sub_category result) in
        if String.eqb (result.category result) "SYSTEM" then
          if negb (String.eqb sub_category "INIT_AMOUNT") then
            Fail (AssertionError result " has SYSTEM but not INIT_AMOUNT")
          else
            match float (result.amount result) with
            | Raise e => Fail e
            | Return x =>
                if le_1e_6 x then Again
                else
                  let result := result.set_payee sub_category result in
                  let result := result.set_time curr_date result in
                  let result := result.set_from_account "Opening Balances" result in
                  Yield (result.del_sub_category result) curr_date
            end
        else
          let curr_date := result.time result in
          let result :=
            if String.eqb (result.category result) "Transfer" then
              result.set_payee sub_category result
            else if String.eqb (result.category result) "Income" then
              result.set_from_account sub_category result
            else
              let result :=
                result.set_to_account
                  (result.category result +:+ ":" +:+ sub_category) result in
              result.set_category "Expense" result
          in
          Yield (result.del_sub_category result) curr_date
  end.

(** [__next__] when the interpreter's recursion limit is not reached: the
    value returned or the exception raised, and the object afterwards.  The
    recursion of the source is the recursion on the rows left.  The method
    with its limit on the nesting is [next_within] below. *)
Fixpoint next_from (rows : list (list string)) (curr_date : datetime)
  : py result.t * t :=
  match rows with
  | [] => (Raise StopIteration, mk [] curr_date)
  | row :: rows' =>
      match body curr_date row with
      | Yield result curr_date' => (Return result, mk rows' curr_date')
      | Again => next_from rows' curr_date
      | Fail e => (Raise e, mk rows' curr_date)
      end
  end.

Definition __next__ (self : t) : py result.t * t :=
  next_from (reader self) (curr_date self).

(** [__next__] as it is written, a method that calls itself on the object it
    has advanced, run with at most [calls] nested calls: [None] when the
    recursion would go deeper. *)
Fixpoint next_within (calls : nat) (self : t) : option (py result.t * t) :=
  match calls with
  | O => None
  | S calls' =>
      match reader self with
      | [] => Some (Raise StopIteration, self)
      | row :: rows' =>
          match body (curr_date self) row with
          | Yield result curr_date' => Some (Return result, mk rows' curr_date')
          | Again => next_within calls' (mk rows' (curr_date self))
          | Fail e => Some (Raise e, mk rows' (curr_date self))
          end
      end
  end.

End AndroMoneyReader.

(** ** The ledger formatter: [class LedgerWriter] *)

(** A computation that writes to the output file and may raise: from the text
    written so far to the outcome and the text written afterwards. *)
Definition io (A : Type) : Type := string → py A * string.

Definition io_ret {A} (a : A) : io A := λ file, (Return a, file).
Definition io_raise {A} (e : exn) : io A := λ file, (Raise e, file).
Definition io_bind {A B} (m : io A) (k : A → io B) : io B :=
  λ file,
    match m file with
    | (Return a, file') => k a file'
    | (Raise e, file') => (Raise e, file')
    end.

#[global] Instance io_mret : MRet io := @io_ret.
#[global] Instance io_mbind : MBind io := λ A B k m, io_bind m k.

(** [file.write(text)] *)
Definition file_write (text : string) : io unit :=
  λ file, (Return tt, file +:+ text).

(** [for x in xs: f(x)] *)
Fixpoint for_each {A} (xs : list A) (f : A → io unit) : io unit :=
  match xs with
  | [] => io_ret tt
  | x :: xs' => f x ;; for_each xs' f
  end.

Module LedgerWriter.

(** The object; its [writer] is the output file, threaded through [io]. *)
Record t := mk { indent : nat }.

Definition __init__ : t := mk 4.

(** One entry of [changed_account]: a dictionary with the key ['account']
    and the optional keys ['amount'] and ['effective_dates']. *)
Record entry := mk_entry {
  account : string;
  amount : option (string * string);
  effective_dates : option (list datetime)
}.

Definition write_tag (self : t) (tag value : string) : io unit :=
  let tag := join "_" (split_ws tag) in
  let value := join " " (split_on "010" value) in
  file_write (repeat_char " " (indent self) +:+ "; :" +:+ tag +:+ ": " +:+ value +:+ LF).

Definition write_single_account (self : t) (account : string)
    (amount : option (string * string)) (effective_date : option datetime) : io unit :=
  let print_account := join " " (split_ws account) in
  file_write (repeat_char " " (indent self) +:+ print_account) ;;
  match amount with
  | Some (number, currency) => file_write ("  " +:+ number +:+ " " +:+ currency)
  | None => io_ret tt
  end ;;
  match effective_date with
  | Some _ =>
      io_raise (NotImplementedError "Effective dates inside account are not supported yet")
  | None => io_ret tt
  end ;;
  file_write LF.

(** [write]; the attribute [self.file] that the effective-date branch reads
    is not one the object has. *)
Definition write (self : t) (transaction_date : datetime) (payee : string)
    (effective_date : option datetime) (changed_account : list entry)
    (remark : string) (tags : list (string * string)) : io unit :=
  file_write (strftime_Y_m_d transaction_date) ;;
  match effective_date with
  | Some _ => io_raise (AttributeError "file")
  | None => io_ret tt
  end ;;
  file_write (" * " +:+ payee +:+ LF) ;;
  for_each changed_account (λ account,
    match effective_dates account with
    | Some _ =>
        io_raise (NotImplementedError "Effective dates inside account are not supported yet")
    | None =>
        write_single_account self (LedgerWriter.account account) (amount account) None
    end) ;;
  for_each tags (λ '(tag, value), write_tag self tag value) ;;
  file_write LF.

End LedgerWriter.

(** ** The driver: [generateLedger] *)

(** [table[key]] *)
Definition subscript (table : gmap string string) (key : string) : py string :=
  match table !! key with
  | Some v => Return v
  | None => Raise (KeyError key)
  end.

(** The list [changed_account] built for one row. *)
Definition changed_account (row : result.t) : py (list LedgerWriter.entry) :=
  to_type ← subscript AndroMoneyReader.TO_ACCOUNT_TYPE (result.category row);
  from_type ← subscript AndroMoneyReader.FROM_ACCOUNT_TYPE (result.category row);
  Return
    [ LedgerWriter.mk_entry (to_type +:+ ":" +:+ result.to_account row)
        (Some (result.amount row, result.currency row)) None;
      LedgerWriter.mk_entry (from_type +:+ ":" +:+ result.from_account row)
        None None ].

(** The dictionary [tags] built for one row, in insertion order. *)
Definition tags (row : result.t) : list (string * string) :=
  [ ("AndroMoney_uid", result.uid row);
    ("AndroMoney_time", strftime_HM (result.time row)) ]
  ++ match result.status row with
     | Some s => [("AndroMoney_status", str_of_Z s)]
     | None => []
     end
  ++ (if String.eqb (result.project row) "" then []
      else [("AndroMoney_project", result.project row)])
  ++ (if String.eqb (result.remark row) "" then []
      else [("AndroMoney_remark", result.remark row)]).

(** The body of the loop of [generateLedger] for one row of the reader. *)
Definition write_row (writer : LedgerWriter.t) (row : result.t) : io unit :=
  match changed_account row with
  | Raise e => io_raise e
  | Return legs =>
      LedgerWriter.write writer (result.time row) (result.payee row) None legs "" (tags row)
  end.

(** [for row in reader: ...], with at most [turns] turns of the loop: [None]
    when the reader has not stopped by then.  The outcome is [Return tt] when
    the reader stops, or the exception that ends the run, with the text of the
    file. *)
Fixpoint ledger_loop (turns : nat) (writer : LedgerWriter.t)
    (reader : AndroMoneyReader.t) (file : string) : option (py unit * string) :=
  match turns with
  | O => None
  | S turns' =>
      match AndroMoneyReader.__next__ reader with
      | (Raise StopIteration, _) => Some (Return tt, file)
      | (Raise e, _) => Some (Raise e, file)
      | (Return row, reader') =>
          match write_row writer row file with
          | (Return _, file') => ledger_loop turns' writer reader' file'
          | (Raise e, file') => Some (Raise e, file')
          end
      end
  end.

(** [generateLedger(reader, outputFile)]: the file is opened empty; the loop
    needs no more turns than the reader has rows, and one to see it stop. *)
Definition generateLedger (reader : AndroMoneyReader.t) : option (py unit * string) :=
  ledger_loop (S (length (AndroMoneyReader.reader reader))) LedgerWriter.__init__ reader "".

(** The same run written row by row: what the classifier and the formatter do
    with each row in turn. *)
Fixpoint ledger_of_rows (writer : LedgerWriter.t) (rows : list (list string))
    (curr_date : datetime) (file : string) : py unit * string :=
  match rows with
  | [] => (Return tt, file)
  | row :: rows' =>
      match AndroMoneyReader.body curr_date row with
      | AndroMoneyReader.Again => ledger_of_rows writer rows' curr_date file
      | AndroMoneyReader.Fail e => (Raise e, file)
      | AndroMoneyReader.Yield result curr_date' =>
          match write_row writer result file with
          | (Return _, file') => ledger_of_rows writer rows' curr_date' file'
          | (Raise e, file') => (Raise e, file')
          end
      end
  end.

(** ** The error classes of the specification *)

(** DataIntegrityError: a failed [assert]. *)
Definition DataIntegrityError (e : exn) : bool :=
  match e with AssertionError _ _ => true | _ => false end.

(** ParseError: a missing column or a malformed number or date. *)
Definition ParseError (e : exn) : bool :=
  match e with IndexError | ValueError _ => true | _ => false end.

(** UnsupportedFeatureError: [NotImplementedError]. *)
Definition UnsupportedFeatureError (e : exn) : bool :=
  match e with NotImplementedError _ => true | _ => false end.

(** ** Sample input *)

(** The default of [--init_date], ['20160824']. *)
Definition init_date : datetime := mk_datetime 2016 8 24 0 0.

(** A row of fifteen columns: id, currency, amount, category, sub-category,
    date, from-account, to-account, remark, periodic, project, payee, uid,
    time of day, status. *)
Definition sample_row (amount category sub_category date from_account to_account
    payee uid time status : string) : list string :=
  ["7"; "USD"; amount; category; sub_category; date; from_account; to_account;
   ""; ""; ""; payee; uid; time; status].

Definition opening_row (amount : string) : list string :=
  sample_row amount "SYSTEM" "INIT_AMOUNT" "20200101" "" "Cash" "" "41" "0" "".

Definition lunch_row (payee : string) : list string :=
  sample_row "12.50" "Food" "Lunch" "20210305" "Checking" "" payee "123" "1230" "".

Definition transfer_row (payee : string) : list string :=
  sample_row "30" "Transfer" "Top up" "20210306" "Checking" "Wallet" payee "124" "905" "1".

(** The transaction of the formatter example of the specification. *)
Definition bob_date : datetime := mk_datetime 2021 3 5 12 30.

Definition bob_legs : list LedgerWriter.entry :=
  [ LedgerWriter.mk_entry "Expenses:Food:Lunch" (Some ("12.50", "USD")) None;
    LedgerWriter.mk_entry "Asset:Checking" None None ].

Definition bob_tags : list (string * string) :=
  [ ("AndroMoney_uid", "123"); ("AndroMoney_time", "1230") ].

Definition bob_block : string :=
"2021-03-05 * Bob
    Expenses:Food:Lunch  12.50 USD
    Asset:Checking
    ; :AndroMoney_uid: 123
    ; :AndroMoney_time: 1230

".

(** What [parse] makes of the sample rows, and what [__next__] returns for
    them when the running date is [init_date]. *)
Definition opening_parsed (amount : string) : result.t :=
  result.mk 7 "USD" amount "SYSTEM" (Some "INIT_AMOUNT") "" "Cash" "" "" "" "" "41"
            (mk_datetime 2020 1 1 0 0) None.

Definition opening_returned (amount : string) : result.t :=
  result.mk 7 "USD" amount "SYSTEM" None "Opening Balances" "Cash" "" "" "" "INIT_AMOUNT"
            "41" init_date None.

Definition lunch_parsed (payee : string) : result.t :=
  result.mk 7 "USD" "12.50" "Food" (Some "Lunch") "Checking" "" "" "" "" payee "123"
            bob_date None.

Definition transfer_parsed (payee : string) : result.t :=
  result.mk 7 "USD" "30" "Transfer" (Some "Top up") "Checking" "Wallet" "" "" "" payee
            "124" (mk_datetime 2021 3 6 9 5) (Some 1).

Definition transfer_returned : result.t :=
  result.mk 7 "USD" "30" "Transfer" None "Checking" "Wallet" "" "" "" "Top up"
            "124" (mk_datetime 2021 3 6 9 5) (Some 1).

(** A leg that asks for effective dates. *)
Definition dated_leg : LedgerWriter.entry :=
  LedgerWriter.mk_entry "Asset:Checking" None (Some [bob_date]).

(** ** Rows that differ in the payee column only *)

(** [row2] is [row1] with, possibly, another text in column 11, and that only
    when [row1] is of the SYSTEM or of the Transfer category. *)
Definition payee_variant (row1 row2 : list string) : Prop :=
  row2 = row1
  ∨ ∃ payee, row2 = <[11%nat := payee]> row1
             ∧ (row1 !! 3%nat = Some "SYSTEM" ∨ row1 !! 3%nat = Some "Transfer").

(** Two outcomes of the body of [__next__] that agree on what is returned and
    on the running date, and raise together. *)
Definition same_step (s1 s2 : AndroMoneyReader.step) : Prop :=
  match s1, s2 with
  | AndroMoneyReader.Yield t1 c1, AndroMoneyReader.Yield t2 c2 => t1 = t2 ∧ c1 = c2
  | AndroMoneyReader.Again, AndroMoneyReader.Again => True
  | AndroMoneyReader.Fail _, AndroMoneyReader.Fail _ => True
  | _, _ => False
  end.

(** Whether a computation raised. *)
Definition raised {A} (m : py A) : bool :=
  match m with Raise _ => true | Return _ => false end.

(** ** The input side: [parseInput] and the command line *)

(** [p.rfind(c)]: the index of the last [c] in [p], or [-1]. *)
Fixpoint rfind (c : ascii) (p : list ascii) : Z :=
  match p with
  | [] => -1
  | x :: p' =>
      let i := rfind c p' in
      if 0 <=? i then i + 1 else if Ascii.eqb x c then 0 else -1
  end.

(** The loop of [os.path.splitext] over the characters from [filenameIndex]
    up to the last dot: [true] as soon as one of them is not a dot. *)
Fixpoint splitext_loop (steps : nat) (filenameIndex : nat) (p : list ascii) : bool :=
  match steps with
  | O => false
  | S steps' =>
      match p !! filenameIndex with
      | Some c =>
          if Ascii.eqb c "." then splitext_loop steps' (S filenameIndex) p else true
      | None => true
      end
  end.

(** [os.path.splitext(p)] on POSIX: the path is cut at its last dot when that
    dot comes after the last slash and after a character of the file name
    that is not a dot. *)
Definition splitext (p : string) : string * string :=
  let l := list_ascii_of_string p in
  let sepIndex := rfind "/" l in
  let dotIndex := rfind "." l in
  if (sepIndex <? dotIndex)
     && splitext_loop (Z.to_nat (dotIndex - (sepIndex + 1))) (Z.to_nat (sepIndex + 1)) l
  then (string_of_list_ascii (take (Z.to_nat dotIndex) l),
        string_of_list_ascii (drop (Z.to_nat dotIndex) l))
  else (p, "").

(** What the run can raise besides the exceptions of the classifier and of
    the formatter: a [StopIteration] raised inside a generator reaches its
    caller as a [RuntimeError]. *)
Inductive error :=
| Exn (e : exn)
| RuntimeError (msg : string).

(** [parseInput(inputFile, ignore_row)], a generator: nothing of it runs until
    the first row is asked for, and then it raises or goes on to give rows.
    [file_rows] are the rows that [csv.reader] reads from the file, which is
    taken to exist.  The outcome is the exception raised at the first
    request, or the rows given before the generator stops. *)
Definition parseInput (file_rows : list (list string)) (inputFile : string)
    (ignore_row : Z) : error + list (list string) :=
  let extension := (splitext inputFile).2 in
  if String.eqb extension ".csv" then
    if (Z.to_nat ignore_row <=? length file_rows)%nat
    then inr (drop (Z.to_nat ignore_row) file_rows)
    else inl (RuntimeError "generator raised StopIteration")
  else if String.eqb extension ".xls" || String.eqb extension ".xlsx" then
    inl (Exn (NotImplementedError "Excel files are not supported yet"))
  else
    inl (Exn (ValueError ("File:" +:+ inputFile +:+ " extension (" +:+ extension
                          +:+ ") not supported"))).

(** The namespace that [parser.parse_args()] returns. *)
Record args := mk_args {
  input : string;
  output : option string;
  ignore_row : Z;
  args_init_date : datetime
}.

(** The path the ledger is written to: [--output], or the input path with
    its extension replaced by [.ledger]. *)
Definition output_path (a : args) : string :=
  match output a with
  | Some path => path
  | None => (splitext (input a)).1 +:+ ".ledger"
  end.

(** The script: the path of the ledger, how the run ends, and the text of the
    ledger.  [generateLedger] opens the ledger before it asks [parseInput]
    for a row, so the ledger is there, and empty, when [parseInput] raises. *)
Definition main (file_rows : list (list string)) (a : args)
    : string * option (error + unit) * string :=
  match parseInput file_rows (input a) (ignore_row a) with
  | inl e => (output_path a, Some (inl e), "")
  | inr rows =>
      match generateLedger (AndroMoneyReader.__init__ rows (args_init_date a)) with
      | Some (Return _, file) => (output_path a, Some (inr tt), file)
      | Some (Raise e, file) => (output_path a, Some (inl (Exn e)), file)
      | None => (output_path a, None, "")
      end
  end.

(** ** Rows that differ in a column the ledger does not show *)

(** [result['periodic'] = v] *)
Definition set_periodic (v : string) (r : result.t) : result.t :=
  result.mk (result.id r) (result.currency r) (result.amount r) (result.category r)
            (result.sub_category r) (result.from_account r) (result.to_account r)
            (result.remark r) v (result.project r) (result.payee r) (result.uid r)
            (result.time r) (result.status r).

(** [row2] is [row1] with, possibly, another text in the periodic column 9,
    or in the from-account column 6 of a SYSTEM or Income row, or in the
    to-account column 7 of a row that is none of SYSTEM, Transfer and
    Income. *)
Definition unused_variant (row1 row2 : list string) : Prop :=
  (∃ v, row2 = <[9%nat := v]> row1)
  ∨ (∃ v, row2 = <[6%nat := v]> row1
          ∧ (row1 !! 3%nat = Some "SYSTEM" ∨ row1 !! 3%nat = Some "Income"))
  ∨ (∃ v c, row2 = <[7%nat := v]> row1
            ∧ row1 !! 3%nat = Some c
            ∧ c ≠ "SYSTEM" ∧ c ≠ "Transfer" ∧ c ≠ "Income").

(** Two outcomes of the body of [__next__] that agree, but for the periodic
    flag, on what is returned, agree on the running date, and raise
    together. *)
Definition same_step_but_periodic (s1 s2 : AndroMoneyReader.step) : Prop :=
  match s1, s2 with
  | AndroMoneyReader.Yield t1 c1, AndroMoneyReader.Yield t2 c2 =>
      t2 = set_periodic (result.periodic t2) t1 ∧ c1 = c2
  | AndroMoneyReader.Again, AndroMoneyReader.Again => True
  | AndroMoneyReader.Fail _, AndroMoneyReader.Fail _ => True
  | _, _ => False
  end.

(** ** More sample input *)

Definition lunch_returned : result.t :=
  result.mk 7 "USD" "12.50" "Expense" None "Checking" "Food:Lunch" "" "" "" "Bob" "123"
            bob_date None.

(** An export of two heading rows and one transaction. *)
Definition sample_file : list (list string) :=
  [ ["AndroMoney"; "2021-03-31"]; ["Id"; "Currency"; "Amount"]; lunch_row "Bob" ].

Definition sample_args (input : string) : args :=
  mk_args input None 2 init_date.

(** ** Notions used to state further properties *)

(** A computation on the output file that only adds text at its end, the
    same text and with the same outcome whatever the file holds. *)
Definition appends {A} (m : io A) : Prop :=
  ∀ file, m file = ((m "").1, file +:+ (m "").2).

(** The running date of the reader once the rows have gone through the body
    of [__next__]. *)
Fixpoint curr_date_after (rows : list (list string)) (curr_date : datetime) : datetime :=
  match rows with
  | [] => curr_date
  | row :: rows' =>
      match AndroMoneyReader.body curr_date row with
      | AndroMoneyReader.Yield _ curr_date' => curr_date_after rows' curr_date'
      | _ => curr_date_after rows' curr_date
      end
  end.

(** [s.replace(a, b)] for single characters. *)
Fixpoint replace_char (a b : ascii) (s : string) : string :=
  match s with
  | EmptyString => EmptyString
  | String c s' => String (if Ascii.eqb c a then b else c) (replace_char a b s')
  end.

(** Whether the character occurs in the text. *)
Fixpoint occurs (c : ascii) (s : string) : bool :=
  match s with
  | EmptyString => false
  | String x s' => Ascii.eqb x c || occurs c s'
  end.

(** Whether the text holds a blank, in the sense of [str.split]. *)
Fixpoint has_space (s : string) : bool :=
  match s with
  | EmptyString => false
  | String x s' => isspace x || has_space s'
  end.

(** ** Runs under the recursion limit *)

(** Whether [__next__] passes the row over and calls itself for the next
    one; this does not depend on the running date. *)
Definition skipped (row : list string) : bool :=
  match AndroMoneyReader.body init_date row with
  | AndroMoneyReader.Again => true
  | _ => false
  end.

(** The number of rows at the front of the stream that are passed over: the
    nested calls that one call of [__next__] makes. *)
Fixpoint leading_skips (rows : list (list string)) : nat :=
  match rows with
  | [] => O
  | row :: rows' => if skipped row then S (leading_skips rows') else O
  end.

(** The longest run of consecutive rows that are passed over, anywhere in the
    stream. *)
Fixpoint longest_skip_run (rows : list (list string)) : nat :=
  match rows with
  | [] => O
  | _ :: rows' => Nat.max (leading_skips rows) (longest_skip_run rows')
  end.

(** How a run ends: the reader stopped, an exception of the classifier or of
    the formatter came out, or [__next__] nested deeper than the interpreter
    allows. *)
Inductive ending :=
| Finished
| Raised (e : exn)
| RecursionError.

(** The loop of [generateLedger] when the interpreter allows [limit] nested
    calls of [__next__]: each turn of the loop calls [__next__] from the same
    depth, so each call has the same budget.  [None] when the reader has not
    stopped after [turns] turns. *)
Fixpoint ledger_loop_within (limit turns : nat) (writer : LedgerWriter.t)
    (reader : AndroMoneyReader.t) (file : string) : option (ending * string) :=
  match turns with
  | O => None
  | S turns' =>
      match AndroMoneyReader.next_within limit reader with
      | None => Some (RecursionError, file)
      | Some (Raise StopIteration, _) => Some (Finished, file)
      | Some (Raise e, _) => Some (Raised e, file)
      | Some (Return row, reader') =>
          match write_row writer row file with
          | (Return _, file') => ledger_loop_within limit turns' writer reader' file'
          | (Raise e, file') => Some (Raised e, file')
          end
      end
  end.

(** [generateLedger(reader, outputFile)] under that limit. *)
Definition generateLedger_within (limit : nat) (reader : AndroMoneyReader.t)
    : option (ending * string) :=
  ledger_loop_within limit (S (length (AndroMoneyReader.reader reader)))
    LedgerWriter.__init__ reader "".

(** The end of a run that stays under the limit. *)
Definition ending_of (out : py unit) : ending :=
  match out with
  | Return _ => Finished
  | Raise e => Raised e
  end.

(** * Properties *)

(** ** Reasoning about [py] and the row parser *)

Lemma bind_Return {A B} (m : py A) (k : A → py B) (b : B) :
  m ≫= k = Return b → ∃ a, m = Return a ∧ k a = Return b.
Proof. destruct m as [a|e]; simpl; [eauto | discriminate]. Qed.

Lemma getitem_Return (row : list string) (i : nat) (s : string) :
  getitem row i = Return s → row !! i = Some s.
Proof. unfold getitem. destruct (row !! i); congruence. Qed.

(** Peel the binds of a successful [py] computation, one at a time. *)
Ltac py_inv H :=
  repeat
    (let a := fresh "v" in
     let Ha := fresh "Hv" in
     apply bind_Return in H as (a & Ha & H);
     try apply getitem_Return in Ha).

(** A row that parses has all its columns, and the dictionary holds them. *)
Lemma parse_fields (row : list string) (r : result.t) :
  AndroMoneyReader.parse row = Return r →
  row !! 2%nat = Some (result.amount r)
  ∧ row !! 3%nat = Some (result.category r)
  ∧ (∃ s, row !! 4%nat = Some s ∧ result.sub_category r = Some s)
  ∧ row !! 11%nat = Some (result.payee r)
  ∧ (∃ f5 f13, row !! 5%nat = Some f5 ∧ row !! 13%nat = Some f13
       ∧ strptime_YmdHM (f5 +:+ zfill 4 f13) = Return (result.time r))
  ∧ (∃ f14, row !! 14%nat = Some f14
       ∧ (if String.eqb f14 "" then result.status r = None
          else ∃ s, int f14 = Return s ∧ result.status r = Some s)).
Proof.
  unfold AndroMoneyReader.parse. intros H. py_inv H.
  injection H as <-. simpl.
  repeat split; eauto.
  exists v15. split; [assumption|].
  destruct (String.eqb v15 ""); simpl in *.
  - congruence.
  - py_inv Hv16. injection Hv16 as <-. eauto.
Qed.

(** ** The body of [__next__], case by case *)

Section Body.
Import AndroMoneyReader.

Variables (curr_date : datetime) (row : list string).

Lemma body_parse_error (e : exn) :
  parse row = Raise e → body curr_date row = Fail e.
Proof. unfold body. intros ->. reflexivity. Qed.

Variable r : result.t.
Hypothesis Hparse : parse row = Return r.

Lemma body_bad_status :
  status_ok (result.status r) = false →
  body curr_date row
  = Fail (AssertionError r (" has status " +:+ str_status (result.status r))).
Proof. unfold body. rewrite Hparse. intros ->. reflexivity. Qed.

Hypothesis Hstatus : status_ok (result.status r) = true.

Lemma body_system_wrong_sub :
  result.category r = "SYSTEM" →
  result.sub_category r ≠ Some "INIT_AMOUNT" →
  body curr_date row = Fail (AssertionError r " has SYSTEM but not INIT_AMOUNT").
Proof.
  intros Hcat Hsub. unfold body. rewrite Hparse, Hstatus, Hcat. simpl.
  destruct (parse_fields _ _ Hparse) as (_ & _ & (s & _ & Hs) & _).
  rewrite Hs in *. simpl.
  destruct (String.eqb_spec s "INIT_AMOUNT") as [->|]; [congruence | reflexivity].
Qed.

Lemma body_system :
  result.category r = "SYSTEM" →
  result.sub_category r = Some "INIT_AMOUNT" →
  body curr_date row
  = match float (result.amount r) with
    | Raise e => Fail e
    | Return x =>
        if le_1e_6 x then Again
        else Yield
               (result.del_sub_category
                  (result.set_from_account "Opening Balances"
                     (result.set_time curr_date
                        (result.set_payee "INIT_AMOUNT" r))))
               curr_date
    end.
Proof.
  intros Hcat Hsub. unfold body. rewrite Hparse, Hstatus, Hcat, Hsub. reflexivity.
Qed.

Lemma body_transfer (sub : string) :
  result.category r = "Transfer" →
  result.sub_category r = Some sub →
  body curr_date row
  = Yield (result.del_sub_category (result.set_payee sub r)) (result.time r).
Proof.
  intros Hcat Hsub. unfold body. rewrite Hparse, Hstatus, Hcat, Hsub. reflexivity.
Qed.

Lemma body_income (sub : string) :
  result.category r = "Income" →
  result.sub_category r = Some sub →
  body curr_date row
  = Yield (result.del_sub_category (result.set_from_account sub r)) (result.time r).
Proof.
  intros Hcat Hsub. unfold body. rewrite Hparse, Hstatus, Hcat, Hsub. reflexivity.
Qed.

Lemma body_expense (sub : string) :
  result.category r ≠ "SYSTEM" →
  result.category r ≠ "Transfer" →
  result.category r ≠ "Income" →
  result.sub_category r = Some sub →
  body curr_date row
  = Yield
      (result.del_sub_category
         (result.set_category "Expense"
            (result.set_to_account (result.category r +:+ ":" +:+ sub) r)))
      (result.time r).
Proof.
  intros H1 H2 H3 Hsub. unfold body. rewrite Hparse, Hstatus, Hsub.
  apply String.eqb_neq in H1, H2, H3. rewrite H1, H2, H3. reflexivity.
Qed.

(** Every row that is not of the SYSTEM category and passes the status
    check is returned, with its own timestamp as the new running date. *)
Lemma body_not_system :
  result.category r ≠ "SYSTEM" →
  ∃ t, body curr_date row = Yield t (result.time r)
       ∧ result.time t = result.time r
       ∧ result.category t ≠ "SYSTEM".
Proof.
  intros H1.
  destruct (parse_fields _ _ Hparse) as (_ & _ & (sub & _ & Hsub) & _).
  destruct (String.eqb_spec (result.category r) "Transfer") as [H2|H2].
  { eexists. split; [apply (body_transfer sub H2 Hsub)|]. simpl. auto. }
  destruct (String.eqb_spec (result.category r) "Income") as [H3|H3].
  { eexists. split; [apply (body_income sub H3 Hsub)|]. simpl. auto. }
  eexists. split; [apply (body_expense sub H1 H2 H3 Hsub)|]. simpl.
  split; [reflexivity | discriminate].
Qed.

End Body.

(** ** Which exceptions the parsers raise *)

Lemma bind_Raise {A B} (m : py A) (k : A → py B) (e : exn) :
  m ≫= k = Raise e → m = Raise e ∨ ∃ a, m = Return a ∧ k a = Raise e.
Proof. destruct m as [a|e']; simpl; intros H; [right; eauto | left; congruence]. Qed.

Lemma getitem_Raise (row : list string) (i : nat) (e : exn) :
  getitem row i = Raise e → ParseError e = true.
Proof. unfold getitem. destruct (row !! i); [discriminate|]. intros [= <-]. reflexivity. Qed.

Lemma int_Raise (s : string) (e : exn) : int s = Raise e → ParseError e = true.
Proof.
  unfold int. destruct (sign (strip s)) as [neg body].
  destruct (digitpart body) as [[[v n] [|c rest]]|];
    try destruct (4300 <? Z.of_nat n); intros [= <-]; reflexivity.
Qed.

Lemma float_Raise (s : string) (e : exn) : float s = Raise e → ParseError e = true.
Proof.
  unfold float. destruct (sign (strip s)) as [neg body].
  repeat case_match; intros [= <-]; reflexivity.
Qed.

Lemma strptime_Raise (s : string) (e : exn) :
  strptime_YmdHM s = Raise e → ParseError e = true.
Proof. unfold strptime_YmdHM. repeat case_match; intros [= <-]; reflexivity. Qed.

Lemma parse_Raise (row : list string) (e : exn) :
  AndroMoneyReader.parse row = Raise e → ParseError e = true.
Proof.
  unfold AndroMoneyReader.parse. intros H.
  repeat
    (apply bind_Raise in H as [H | (? & _ & H)];
     [ first [ exact (getitem_Raise _ _ _ H) | exact (int_Raise _ _ H)
             | exact (strptime_Raise _ _ H) | idtac ] | ]).
  - destruct (String.eqb _ _); [discriminate|].
    apply bind_Raise in H as [H | (? & _ & H)]; [exact (int_Raise _ _ H) | discriminate].
  - discriminate.
Qed.

(** ** The classifier *)

Section Classifier.
Import AndroMoneyReader.

(** One turn of [__next__] on a non-empty stream. *)
Lemma next_cons (row : list string) (rows : list (list string)) (curr : datetime) :
  __next__ (mk (row :: rows) curr)
  = match body curr row with
    | Yield t curr' => (Return t, mk rows curr')
    | Again => __next__ (mk rows curr)
    | Fail e => (Raise e, mk rows curr)
    end.
Proof. reflexivity. Qed.

(** What a returned SYSTEM row looks like. *)
Lemma body_system_yield
    (curr : datetime) (row : list string) (r t0 : result.t) (curr' : datetime) :
  parse row = Return r →
  result.category r = "SYSTEM" →
  body curr row = Yield t0 curr' →
  t0 = result.del_sub_category
         (result.set_from_account "Opening Balances"
            (result.set_time curr (result.set_payee "INIT_AMOUNT" r)))
  ∧ curr' = curr.
Proof.
  intros Hparse Hcat Hbody.
  destruct (status_ok (result.status r)) eqn:Hst.
  - destruct (decide (result.sub_category r = Some "INIT_AMOUNT")) as [Hsub|Hsub].
    + rewrite (body_system curr row r Hparse Hst Hcat Hsub) in Hbody.
      destruct (float (result.amount r)) as [x|e]; [|discriminate].
      destruct (le_1e_6 x); [discriminate|].
      injection Hbody as <- <-. split; reflexivity.
    + rewrite (body_system_wrong_sub curr row r Hparse Hst Hcat Hsub) in Hbody.
      discriminate.
  - rewrite (body_bad_status curr row r Hparse Hst) in Hbody. discriminate.
Qed.

(** C1. An opening-balance row that is returned carries the running
    [curr_date] of the reader as its timestamp, whatever its own date and
    time columns hold, and leaves the running date as it was. *)
Theorem C1_opening_balance_timestamp
    (curr : datetime) (row : list string) (r t0 : result.t) (curr' : datetime) :
  parse row = Return r →
  result.category r = "SYSTEM" →
  body curr row = Yield t0 curr' →
  result.time t0 = curr
  ∧ curr' = curr
  ∧ ∀ rows, __next__ (mk (row :: rows) curr) = (Return t0, mk rows curr).
Proof.
  intros Hparse Hcat Hbody.
  destruct (body_system_yield curr row r t0 curr' Hparse Hcat Hbody) as [Ht ->].
  split; [rewrite Ht; reflexivity|]. split; [reflexivity|].
  intros rows. rewrite next_cons, Hbody. reflexivity.
Qed.

(** Whether the body of [__next__] passes a row over does not depend on the
    running date. *)
Lemma body_Again_curr (curr curr' : datetime) (row : list string) :
  body curr row = Again → body curr' row = Again.
Proof.
  unfold body. destruct (parse row) as [r|e]; [|discriminate].
  destruct (negb (status_ok (result.status r))); [discriminate|].
  destruct (String.eqb (result.category r) "SYSTEM"); [|discriminate].
  destruct (negb _); [discriminate|].
  destruct (float (result.amount r)) as [x|e]; [|discriminate].
  destruct (le_1e_6 x); [reflexivity | discriminate].
Qed.

Lemma skipped_Again (curr : datetime) (row : list string) :
  skipped row = true ↔ body curr row = Again.
Proof.
  unfold skipped. split.
  - destruct (body init_date row) eqn:H; try discriminate.
    intros _. exact (body_Again_curr init_date curr row H).
  - intros H. rewrite (body_Again_curr curr init_date row H). reflexivity.
Qed.

(** A call of [__next__] needs one nested call for each row it passes over:
    it gets through exactly when the budget exceeds the number of such rows
    at the front of the stream. *)
Lemma next_within_leading (calls : nat) (rows : list (list string)) (curr : datetime) :
  next_within calls (mk rows curr)
  = if (leading_skips rows <? calls)%nat then Some (next_from rows curr) else None.
Proof.
  revert rows. induction calls as [|calls IH]; intros rows.
  - simpl. destruct (leading_skips rows <? 0)%nat eqn:H; [|reflexivity].
    apply Nat.ltb_lt in H. lia.
  - destruct rows as [|row rows]; [reflexivity|].
    simpl. destruct (skipped row) eqn:Hs.
    + apply (skipped_Again curr) in Hs. rewrite Hs, IH. reflexivity.
    + destruct (body curr row) as [t0 c| |e] eqn:Hbody; try reflexivity.
      apply (skipped_Again curr) in Hbody. congruence.
Qed.


(** C3. A row whose category is none of SYSTEM, Transfer and Income is
    returned with the category ["Expense"] and with the original category,
    a colon and the sub-category as its [to_account]. *)
Theorem C3_expense_normalised
    (curr : datetime) (row : list string) (r : result.t) (cat sub : string) :
  parse row = Return r →
  status_ok (result.status r) = true →
  row !! 3%nat = Some cat →
  row !! 4%nat = Some sub →
  cat ≠ "SYSTEM" → cat ≠ "Transfer" → cat ≠ "Income" →
  ∃ t0, body curr row = Yield t0 (result.time r)
        ∧ result.category t0 = "Expense"
        ∧ result.to_account t0 = cat +:+ ":" +:+ sub.
Proof.
  intros Hparse Hst Hcat Hsub H1 H2 H3.
  destruct (parse_fields _ _ Hparse) as (_ & Hc & (s & Hs & Hs') & _).
  rewrite Hcat in Hc. injection Hc as ->.
  rewrite Hsub in Hs. injection Hs as <-.
  eexists. split; [apply (body_expense curr row r Hparse Hst sub H1 H2 H3 Hs')|].
  split; reflexivity.
Qed.

(** C5. Processing a row raises a DataIntegrityError exactly when the row
    parses and either its status is present and neither 0 nor 1, or its
    category is SYSTEM and its sub-category is not INIT_AMOUNT; the error
    then carries the dictionary parsed from the row. *)
Theorem C5_data_integrity_error (curr : datetime) (row : list string) :
  ((∃ e, body curr row = Fail e ∧ DataIntegrityError e = true)
   ↔ ∃ r, parse row = Return r
          ∧ (status_ok (result.status r) = false
             ∨ (result.category r = "SYSTEM"
                ∧ result.sub_category r ≠ Some "INIT_AMOUNT")))
  ∧ (∀ r msg, body curr row = Fail (AssertionError r msg) → parse row = Return r).
Proof.
  assert (∀ e, body curr row = Fail e → DataIntegrityError e = true →
            ∃ r msg, e = AssertionError r msg ∧ parse row = Return r
              ∧ (status_ok (result.status r) = false
                 ∨ (result.category r = "SYSTEM"
                    ∧ result.sub_category r ≠ Some "INIT_AMOUNT"))) as Hfwd.
  { intros e Hbody He.
    destruct (parse row) as [r|e'] eqn:Hparse.
    2:{ rewrite (body_parse_error curr row e' Hparse) in Hbody.
        injection Hbody as <-. apply parse_Raise in Hparse.
        destruct e'; discriminate. }
    destruct (status_ok (result.status r)) eqn:Hst.
    2:{ rewrite (body_bad_status curr row r Hparse Hst) in Hbody.
        injection Hbody as <-. eauto 6. }
    destruct (String.eqb_spec (result.category r) "SYSTEM") as [Hcat|Hcat].
    2:{ destruct (body_not_system curr row r Hparse Hst Hcat) as (t0 & Hy & _).
        congruence. }
    destruct (decide (result.sub_category r = Some "INIT_AMOUNT")) as [Hsub|Hsub].
    - rewrite (body_system curr row r Hparse Hst Hcat Hsub) in Hbody.
      destruct (float (result.amount r)) as [x|e'] eqn:Hf.
      + destruct (le_1e_6 x); discriminate.
      + injection Hbody as <-. apply float_Raise in Hf. destruct e'; discriminate.
    - rewrite (body_system_wrong_sub curr row r Hparse Hst Hcat Hsub) in Hbody.
      injection Hbody as <-. eauto 8. }
  split; [split|].
  - intros (e & Hbody & He).
    destruct (Hfwd e Hbody He) as (r & msg & _ & Hparse & Hwhy). eauto.
  - intros (r & Hparse & [Hst | [Hcat Hsub]]).
    + eexists. split; [apply (body_bad_status curr row r Hparse Hst) | reflexivity].
    + destruct (status_ok (result.status r)) eqn:Hst.
      * eexists. split;
          [apply (body_system_wrong_sub curr row r Hparse Hst Hcat Hsub) | reflexivity].
      * eexists. split; [apply (body_bad_status curr row r Hparse Hst) | reflexivity].
  - intros r msg Hbody.
    destruct (Hfwd _ Hbody eq_refl) as (r' & msg' & [= <- <-] & Hparse & _).
    exact Hparse.
Qed.

(** C8. The running date moves only forward through the rows: a row that is
    not an opening balance and is returned sets [curr_date] to its own
    parsed timestamp, and an opening-balance row, whether it is returned,
    passed over or refused, leaves [curr_date] as it was. *)
Theorem C8_curr_date_frame
    (curr : datetime) (row : list string) (r : result.t) (rows : list (list string)) :
  parse row = Return r →
  (result.category r ≠ "SYSTEM" → status_ok (result.status r) = true →
     ∃ t0, __next__ (mk (row :: rows) curr) = (Return t0, mk rows (result.time r))
           ∧ result.time t0 = result.time r)
  ∧ (result.category r = "SYSTEM" →
       (∃ t0, __next__ (mk (row :: rows) curr) = (Return t0, mk rows curr))
       ∨ (body curr row = Again
          ∧ __next__ (mk (row :: rows) curr) = __next__ (mk rows curr))
       ∨ (∃ e, __next__ (mk (row :: rows) curr) = (Raise e, mk rows curr))).
Proof.
  intros Hparse. split.
  - intros Hcat Hst.
    destruct (body_not_system curr row r Hparse Hst Hcat) as (t0 & Hy & Ht & _).
    exists t0. rewrite next_cons, Hy. auto.
  - intros Hcat. rewrite next_cons.
    destruct (body curr row) as [t0 curr'| |e] eqn:Hbody.
    + left. exists t0.
      destruct (body_system_yield curr row r t0 curr' Hparse Hcat Hbody) as [_ ->].
      reflexivity.
    + right. left. auto.
    + right. right. eauto.
Qed.

End Classifier.

(** ** The formatter *)

Section Formatter.
Import LedgerWriter.

Lemma subscript_TO_SYSTEM : subscript AndroMoneyReader.TO_ACCOUNT_TYPE "SYSTEM" = Return "Asset".
Proof. reflexivity. Qed.
Lemma subscript_TO_Transfer : subscript AndroMoneyReader.TO_ACCOUNT_TYPE "Transfer" = Return "Asset".
Proof. reflexivity. Qed.
Lemma subscript_TO_Income : subscript AndroMoneyReader.TO_ACCOUNT_TYPE "Income" = Return "Asset".
Proof. reflexivity. Qed.
Lemma subscript_TO_Expense : subscript AndroMoneyReader.TO_ACCOUNT_TYPE "Expense" = Return "Expenses".
Proof. reflexivity. Qed.
Lemma subscript_FROM_SYSTEM : subscript AndroMoneyReader.FROM_ACCOUNT_TYPE "SYSTEM" = Return "Equity".
Proof. reflexivity. Qed.
Lemma subscript_FROM_Transfer : subscript AndroMoneyReader.FROM_ACCOUNT_TYPE "Transfer" = Return "Asset".
Proof. reflexivity. Qed.
Lemma subscript_FROM_Income : subscript AndroMoneyReader.FROM_ACCOUNT_TYPE "Income" = Return "Income".
Proof. reflexivity. Qed.
Lemma subscript_FROM_Expense : subscript AndroMoneyReader.FROM_ACCOUNT_TYPE "Expense" = Return "Asset".
Proof. reflexivity. Qed.

(** The two legs, given the two namespaces. *)
Lemma changed_account_of (row : result.t) (to_type from_type : string) :
  subscript AndroMoneyReader.TO_ACCOUNT_TYPE (result.category row) = Return to_type →
  subscript AndroMoneyReader.FROM_ACCOUNT_TYPE (result.category row) = Return from_type →
  changed_account row
  = Return
      [ mk_entry (to_type +:+ ":" +:+ result.to_account row)
          (Some (result.amount row, result.currency row)) None;
        mk_entry (from_type +:+ ":" +:+ result.from_account row) None None ].
Proof. unfold changed_account. intros -> ->. reflexivity. Qed.

(** The category of a returned row, read off the updates made to it. *)
Ltac category_of H :=
  cbn [result.category result.del_sub_category result.set_payee result.set_time
       result.set_from_account result.set_to_account result.set_category];
  rewrite ?H; reflexivity.

Ltac namespaces H :=
  split; [apply changed_account_of; category_of H|];
  split; [category_of H|]; split; [category_of H|].

(** C4. The namespaces put before the two accounts of a returned row are
    fixed by its archetype: Equity and Asset for an opening balance, Asset
    and Asset for a transfer, Income and Asset for an income, Asset and
    Expenses for an expense ([from] before [to]). *)
Theorem C4_account_namespaces
    (curr : datetime) (row : list string) (r t0 : result.t) (curr' : datetime) :
  AndroMoneyReader.parse row = Return r →
  AndroMoneyReader.body curr row = AndroMoneyReader.Yield t0 curr' →
  ∃ to_type from_type,
    changed_account t0
    = Return
        [ mk_entry (to_type +:+ ":" +:+ result.to_account t0)
            (Some (result.amount t0, result.currency t0)) None;
          mk_entry (from_type +:+ ":" +:+ result.from_account t0) None None ]
    ∧ AndroMoneyReader.TO_ACCOUNT_TYPE !! result.category t0 = Some to_type
    ∧ AndroMoneyReader.FROM_ACCOUNT_TYPE !! result.category t0 = Some from_type
    ∧ ((result.category r = "SYSTEM" ∧ from_type = "Equity" ∧ to_type = "Asset")
       ∨ (result.category r = "Transfer" ∧ from_type = "Asset" ∧ to_type = "Asset")
       ∨ (result.category r = "Income" ∧ from_type = "Income" ∧ to_type = "Asset")
       ∨ (result.category r ≠ "SYSTEM" ∧ result.category r ≠ "Transfer"
          ∧ result.category r ≠ "Income" ∧ result.category t0 = "Expense"
          ∧ from_type = "Asset" ∧ to_type = "Expenses")).
Proof.
  intros Hparse Hbody.
  destruct (parse_fields _ _ Hparse) as (_ & _ & (sub & _ & Hsub) & _).
  destruct (AndroMoneyReader.status_ok (result.status r)) eqn:Hst.
  2:{ rewrite (body_bad_status curr row r Hparse Hst) in Hbody. discriminate. }
  destruct (String.eqb_spec (result.category r) "SYSTEM") as [H1|H1].
  { destruct (body_system_yield curr row r t0 curr' Hparse H1 Hbody) as [-> _].
    exists "Asset", "Equity". namespaces H1. left. auto. }
  destruct (String.eqb_spec (result.category r) "Transfer") as [H2|H2].
  { rewrite (body_transfer curr row r Hparse Hst sub H2 Hsub) in Hbody.
    injection Hbody as <- <-.
    exists "Asset", "Asset". namespaces H2. right. left. auto. }
  destruct (String.eqb_spec (result.category r) "Income") as [H3|H3].
  { rewrite (body_income curr row r Hparse Hst sub H3 Hsub) in Hbody.
    injection Hbody as <- <-.
    exists "Asset", "Income". namespaces H3. right. right. left. auto. }
  rewrite (body_expense curr row r Hparse Hst sub H1 H2 H3 Hsub) in Hbody.
  injection Hbody as <- <-.
  exists "Expenses", "Asset". namespaces H1.
  right. right. right. repeat split; assumption || reflexivity.
Qed.

(** A leg without effective dates is written and nothing is raised. *)
Lemma write_single_account_None (self : t) (account : string)
    (amount : option (string * string)) (file : string) :
  ∃ file', write_single_account self account amount None file = (Return tt, file').
Proof.
  unfold write_single_account. destruct amount as [[number currency]|]; eexists; reflexivity.
Qed.

(** The loop over the legs stops at the first one with effective dates. *)
Lemma legs_effective_dates (self : t) (legs : list entry) (file : string) :
  Exists (λ leg, effective_dates leg ≠ None) legs →
  ∃ e file',
    for_each legs (λ account,
      match effective_dates account with
      | Some _ =>
          io_raise (NotImplementedError "Effective dates inside account are not supported yet")
      | None =>
          write_single_account self (LedgerWriter.account account) (amount account) None
      end) file = (Raise e, file')
    ∧ UnsupportedFeatureError e = true.
Proof.
  intros H. revert file. induction H as [leg legs Hleg | leg legs _ IH]; intros file.
  - simpl. unfold mbind, io_mbind, io_bind.
    destruct (effective_dates leg); [|congruence]. eexists _, _. split; reflexivity.
  - simpl. unfold mbind, io_mbind, io_bind.
    destruct (effective_dates leg).
    + eexists _, _. split; reflexivity.
    + destruct (write_single_account_None self (account leg) (amount leg) file) as [file' ->].
      apply IH.
Qed.

(** C6, as the code has it.  With no effective date for the transaction
    itself, effective dates on any leg make [write] raise an
    UnsupportedFeatureError, and so does an effective date passed to
    [write_single_account]; neither is ignored. *)
Theorem C6_leg_effective_dates_unsupported
    (self : t) (transaction_date : datetime) (payee : string) (legs : list entry)
    (remark : string) (tags : list (string * string)) (file : string) :
  Exists (λ leg, effective_dates leg ≠ None) legs →
  (∃ e file',
     write self transaction_date payee None legs remark tags file = (Raise e, file')
     ∧ UnsupportedFeatureError e = true)
  ∧ (∀ account amount effective_date,
       ∃ e file',
         write_single_account self account amount (Some effective_date) file
         = (Raise e, file')
         ∧ UnsupportedFeatureError e = true).
Proof.
  intros H. split.
  - unfold write. unfold mbind at 1 2 3, io_mbind, io_bind. simpl.
    destruct (legs_effective_dates self legs
                ((file +:+ strftime_Y_m_d transaction_date) +:+ " * " +:+ payee +:+ LF) H)
      as (e & file' & Hlegs & He).
    unfold mbind at 1, io_mbind, io_bind. rewrite Hlegs. eauto.
  - intros account amount effective_date. unfold write_single_account.
    destruct amount as [[number currency]|]; eexists _, _; split; reflexivity.
Qed.

(** C7. The block written for the example transaction of the
    specification, by [write] itself and by the whole run on the row it
    comes from, and a tag with a blank in its name and a line feed in its
    value. *)
Theorem C7_formatter_example :
  write __init__ bob_date "Bob" None bob_legs "" bob_tags "" = (Return tt, bob_block)
  ∧ generateLedger (AndroMoneyReader.__init__ [lunch_row "Bob"] init_date)
    = Some (Return tt, bob_block)
  ∧ write_tag __init__ "a tag" ("two" +:+ LF +:+ "lines") ""
    = (Return tt, "    ; :a_tag: two lines" +:+ LF).
Proof. repeat split; vm_compute; reflexivity. Qed.

End Formatter.

(** ** The whole run *)

Section Pipeline.
Import AndroMoneyReader.

(** The body of [__next__] raises parse errors and failed assertions only. *)
Lemma body_Fail (curr : datetime) (row : list string) (e : exn) :
  body curr row = Fail e → ParseError e = true ∨ DataIntegrityError e = true.
Proof.
  unfold body. destruct (parse row) as [r|e'] eqn:Hparse.
  2:{ intros [= <-]. left. exact (parse_Raise _ _ Hparse). }
  destruct (status_ok (result.status r)); simpl.
  2:{ intros [= <-]. right. reflexivity. }
  destruct (String.eqb (result.category r) "SYSTEM").
  - destruct (String.eqb _ "INIT_AMOUNT"); simpl.
    + destruct (float (result.amount r)) as [x|e'] eqn:Hf.
      * destruct (le_1e_6 x); discriminate.
      * intros [= <-]. left. exact (float_Raise _ _ Hf).
    + intros [= <-]. right. reflexivity.
  - discriminate.
Qed.

Lemma body_not_stop (curr : datetime) (row : list string) :
  body curr row ≠ Fail StopIteration.
Proof. intros H. apply body_Fail in H as [H|H]; discriminate. Qed.

(** [__next__] takes rows off the front of the stream, at least one when
    there is one, and raises [StopIteration] only at the end of it. *)
Lemma next_from_consumes (rows : list (list string)) (curr : datetime) :
  ∃ consumed,
    rows = (consumed ++ reader (next_from rows curr).2)%list
    ∧ (rows ≠ [] → consumed ≠ [])
    ∧ ((next_from rows curr).1 = Raise StopIteration →
         reader (next_from rows curr).2 = []).
Proof.
  induction rows as [|row rows IH].
  - exists []. simpl. auto.
  - simpl. destruct (body curr row) as [t0 curr'| |e] eqn:Hbody.
    + exists [row]. simpl. split; [reflexivity|]. split; [discriminate|]. discriminate.
    + destruct IH as (consumed & Hrows & _ & Hstop).
      exists (row :: consumed). simpl. split; [congruence|]. split; [discriminate|].
      exact Hstop.
    + exists [row]. simpl. split; [reflexivity|]. split; [discriminate|].
      intros [= ->]. destruct (body_not_stop _ _ Hbody).
Qed.

(** The recursion of [__next__] is as deep as the rows it passes over, so as
    many nested calls as there are rows, and one more, are enough. *)
Lemma next_within_enough (calls : nat) (rows : list (list string)) (curr : datetime) :
  (length rows < calls)%nat →
  next_within calls (mk rows curr) = Some (next_from rows curr).
Proof.
  revert rows. induction calls as [|calls IH]; intros rows Hlen; [lia|].
  destruct rows as [|row rows]; [reflexivity|].
  simpl in *. destruct (body curr row); try reflexivity.
  apply IH. lia.
Qed.

(** C10. A call of [__next__] on a finite stream ends: a recursion depth of
    one more than the number of rows left is enough, each nested call is
    made on a stream that is one row shorter, and the call returns a
    dictionary, raises [StopIteration] with the stream used up, or raises
    an error. *)
Theorem C10_next_terminates (self : t) (calls : nat) :
  (length (reader self) < calls)%nat →
  next_within calls self = Some (__next__ self)
  ∧ (∃ consumed,
       reader self = (consumed ++ reader (__next__ self).2)%list
       ∧ (reader self ≠ [] → consumed ≠ []))
  ∧ ((∃ t0, (__next__ self).1 = Return t0)
     ∨ ((__next__ self).1 = Raise StopIteration ∧ reader (__next__ self).2 = [])
     ∨ (∃ e, (__next__ self).1 = Raise e ∧ e ≠ StopIteration)).
Proof.
  destruct self as [rows curr]. unfold __next__. simpl. intros Hlen.
  split; [exact (next_within_enough calls rows curr Hlen)|].
  destruct (next_from_consumes rows curr) as (consumed & Hrows & Hne & Hstop).
  split; [eauto|].
  destruct (next_from rows curr).1 as [t0|e] eqn:Hout; [eauto|].
  destruct e; try (right; right; eexists; split; [reflexivity | discriminate]).
  right. left. split; [reflexivity | apply Hstop; reflexivity].
Qed.

(** One turn of the loop of [generateLedger], read off the rows. *)
Lemma next_from_ledger (writer : LedgerWriter.t) (rows : list (list string))
    (curr : datetime) (file : string) :
  match next_from rows curr with
  | (Raise StopIteration, _) => ledger_of_rows writer rows curr file = (Return tt, file)
  | (Raise e, _) => ledger_of_rows writer rows curr file = (Raise e, file)
  | (Return t0, self') =>
      (length (reader self') < length rows)%nat
      ∧ ledger_of_rows writer rows curr file
        = match write_row writer t0 file with
          | (Return _, file') =>
              ledger_of_rows writer (reader self') (curr_date self') file'
          | (Raise e, file') => (Raise e, file')
          end
  end.
Proof.
  induction rows as [|row rows IH]; [reflexivity|].
  simpl. destruct (body curr row) as [t0 curr'| |e] eqn:Hbody.
  - simpl. split; [lia | reflexivity].
  - destruct (next_from rows curr) as [[t0|e] self']; [|exact IH].
    destruct IH as [Hlen IH]. split; [lia | exact IH].
  - destruct e; try reflexivity. destruct (body_not_stop _ _ Hbody).
Qed.

(** The loop needs no more turns than the reader has rows, and one to see
    it stop; with that many it does what [ledger_of_rows] says. *)
Lemma ledger_loop_enough (writer : LedgerWriter.t) (turns : nat)
    (rows : list (list string)) (curr : datetime) (file : string) :
  (length rows < turns)%nat →
  ledger_loop turns writer (mk rows curr) file
  = Some (ledger_of_rows writer rows curr file).
Proof.
  revert rows curr file. induction turns as [|turns IH]; intros rows curr file Hlen; [lia|].
  simpl. unfold __next__. simpl.
  pose proof (next_from_ledger writer rows curr file) as Hnext.
  destruct (next_from rows curr) as [[t0|e] [rows' curr']].
  - destruct Hnext as [Hlen' ->]. simpl in Hlen'.
    destruct (write_row writer t0 file) as [[[]|e] file']; [|reflexivity].
    apply IH. simpl. lia.
  - destruct e; rewrite Hnext; reflexivity.
Qed.

Lemma generateLedger_rows (rows : list (list string)) (curr : datetime) :
  generateLedger (mk rows curr)
  = Some (ledger_of_rows LedgerWriter.__init__ rows curr "").
Proof. unfold generateLedger. apply ledger_loop_enough. simpl. lia. Qed.

(** The row parser does not look at column 11 beyond storing it. *)
Lemma parse_payee (row : list string) (payee : string) :
  (11 < length row)%nat →
  parse (<[11%nat := payee]> row)
  = (r ← parse row; Return (result.set_payee payee r)).
Proof.
  intros Hlen. unfold parse, getitem.
  rewrite list_lookup_insert_eq by lia.
  rewrite !list_lookup_insert_ne by lia.
  destruct (lookup_lt_is_Some_2 row 11 Hlen) as [old ->].
  repeat
    match goal with
    | |- (match ?m with Some _ => _ | None => _ end ≫= _) = _ =>
        destruct m; simpl; [|reflexivity]
    | |- (?m ≫= _) = _ => destruct m; simpl; [|reflexivity]
    end.
  reflexivity.
Qed.

Lemma same_step_refl (s : step) : same_step s s.
Proof. destruct s; simpl; auto. Qed.

(** For a SYSTEM or Transfer row the text in column 11 makes no difference
    to what the body of [__next__] returns. *)
Lemma body_payee (curr : datetime) (row1 row2 : list string) :
  payee_variant row1 row2 → same_step (body curr row1) (body curr row2).
Proof.
  intros [-> | (payee & -> & Hcat)]; [apply same_step_refl|].
  destruct (decide (11 < length row1)%nat) as [Hlen|Hlen].
  2:{ rewrite list_insert_ge by lia. apply same_step_refl. }
  pose proof (parse_payee row1 payee Hlen) as Hp2.
  destruct (parse row1) as [r|e] eqn:Hp1; simpl in Hp2.
  2:{ rewrite (body_parse_error curr _ e Hp1), (body_parse_error curr _ e Hp2).
      exact I. }
  destruct (parse_fields _ _ Hp1) as (_ & Hc & (sub & _ & Hsub) & _).
  destruct (status_ok (result.status r)) eqn:Hst.
  2:{ rewrite (body_bad_status curr _ r Hp1 Hst), (body_bad_status curr _ _ Hp2 Hst).
      exact I. }
  destruct Hcat as [Hcat|Hcat]; rewrite Hcat in Hc; injection Hc as Hc; symmetry in Hc.
  - destruct (decide (result.sub_category r = Some "INIT_AMOUNT")) as [Hi|Hi].
    + rewrite (body_system curr _ r Hp1 Hst Hc Hi), (body_system curr _ _ Hp2 Hst Hc Hi).
      simpl. destruct (float (result.amount r)) as [x|e]; [|exact I].
      destruct (le_1e_6 x); [exact I|]. split; reflexivity.
    + rewrite (body_system_wrong_sub curr _ r Hp1 Hst Hc Hi),
              (body_system_wrong_sub curr _ _ Hp2 Hst Hc Hi).
      exact I.
  - rewrite (body_transfer curr _ r Hp1 Hst sub Hc Hsub),
            (body_transfer curr _ _ Hp2 Hst sub Hc Hsub).
    split; reflexivity.
Qed.

(** Rows that differ in such payee columns only give the same file, and
    the run fails on the one stream when it fails on the other. *)
Lemma ledger_of_rows_payee (writer : LedgerWriter.t)
    (rows1 rows2 : list (list string)) (curr : datetime) (file : string) :
  Forall2 payee_variant rows1 rows2 →
  (ledger_of_rows writer rows1 curr file).2 = (ledger_of_rows writer rows2 curr file).2
  ∧ raised (ledger_of_rows writer rows1 curr file).1
    = raised (ledger_of_rows writer rows2 curr file).1.
Proof.
  intros H. revert curr file.
  induction H as [|row1 row2 rows1 rows2 Hrow _ IH]; intros curr file; [auto|].
  simpl. pose proof (body_payee curr row1 row2 Hrow) as Hsame.
  destruct (body curr row1) as [t1 c1| |e1], (body curr row2) as [t2 c2| |e2];
    try contradiction; simpl in *.
  - destruct Hsame as [<- <-].
    destruct (write_row writer t1 file) as [[[]|e] file']; [apply IH | auto].
  - apply IH.
  - auto.
Qed.

(** Income and Expense rows keep the text of column 11 as their payee. *)
Lemma body_keeps_payee (curr : datetime) (row : list string) (r t0 : result.t)
    (curr' : datetime) :
  parse row = Return r →
  result.category r ≠ "SYSTEM" →
  result.category r ≠ "Transfer" →
  body curr row = Yield t0 curr' →
  row !! 11%nat = Some (result.payee t0).
Proof.
  intros Hparse H1 H2 Hbody.
  destruct (parse_fields _ _ Hparse) as (_ & _ & (sub & _ & Hsub) & Hpayee & _).
  destruct (status_ok (result.status r)) eqn:Hst.
  2:{ rewrite (body_bad_status curr row r Hparse Hst) in Hbody. discriminate. }
  destruct (String.eqb_spec (result.category r) "Income") as [H3|H3].
  - rewrite (body_income curr row r Hparse Hst sub H3 Hsub) in Hbody.
    injection Hbody as <- _. exact Hpayee.
  - rewrite (body_expense curr row r Hparse Hst sub H1 H2 H3 Hsub) in Hbody.
    injection Hbody as <- _. exact Hpayee.
Qed.

(** C9, as the code has it.  The text of column 11 is overwritten for the
    SYSTEM and Transfer rows: two streams that differ only there give the
    same ledger and fail together.  Income and Expense rows keep it as
    their payee, the one [write_row] hands to the title line. *)
Theorem C9_payee_overwritten_for_system_and_transfer
    (rows1 rows2 : list (list string)) (curr : datetime) :
  Forall2 payee_variant rows1 rows2 →
  (∃ out1 out2 file,
     generateLedger (mk rows1 curr) = Some (out1, file)
     ∧ generateLedger (mk rows2 curr) = Some (out2, file)
     ∧ raised out1 = raised out2)
  ∧ (∀ row r t0 curr',
       parse row = Return r →
       result.category r ≠ "SYSTEM" →
       result.category r ≠ "Transfer" →
       body curr row = Yield t0 curr' →
       row !! 11%nat = Some (result.payee t0)).
Proof.
  intros H. split.
  - rewrite !generateLedger_rows.
    destruct (ledger_of_rows_payee LedgerWriter.__init__ rows1 rows2 curr "" H)
      as [Hfile Hraised].
    destruct (ledger_of_rows _ rows1 curr "") as [out1 file1],
             (ledger_of_rows _ rows2 curr "") as [out2 file2].
    simpl in *. subst file2. eauto 6.
  - intros row r t0 curr' Hparse H1 H2 Hbody.
    exact (body_keeps_payee curr row r t0 curr' Hparse H1 H2 Hbody).
Qed.

End Pipeline.

(** ** The properties on the sample input *)

(** The default of [--init_date] as [argparse] converts it. *)
Lemma init_date_default : strptime_Ymd "20160824" = Return init_date.
Proof. reflexivity. Qed.

(** C1 on the example of the specification: the first row is an opening
    balance dated 2020-01-01, the reader starts at 2016-08-24, and the
    timestamp returned is 2016-08-24. *)
Lemma C1_witness :
  result.time (opening_parsed "1000") = mk_datetime 2020 1 1 0 0
  ∧ result.time (opening_returned "1000") = mk_datetime 2016 8 24 0 0
  ∧ init_date = init_date
  ∧ ∀ rows,
      AndroMoneyReader.__next__
        (AndroMoneyReader.mk (opening_row "1000" :: rows) init_date)
      = (Return (opening_returned "1000"), AndroMoneyReader.mk rows init_date).
Proof.
  split; [reflexivity|].
  apply (C1_opening_balance_timestamp init_date (opening_row "1000")
           (opening_parsed "1000") (opening_returned "1000") init_date);
    reflexivity.
Defined.


(** C3 on the example of the specification: Food and Lunch. *)
Lemma C3_witness :
  ∃ t0, AndroMoneyReader.body init_date (lunch_row "Bob")
        = AndroMoneyReader.Yield t0 bob_date
        ∧ result.category t0 = "Expense"
        ∧ result.to_account t0 = "Food:Lunch".
Proof.
  apply (C3_expense_normalised init_date (lunch_row "Bob") (lunch_parsed "Bob")
           "Food" "Lunch"); reflexivity || discriminate.
Defined.

(** C4 on a transfer: both legs are under Asset. *)
Lemma C4_witness :
  ∃ to_type from_type,
    changed_account transfer_returned
    = Return
        [ LedgerWriter.mk_entry (to_type +:+ ":" +:+ "Wallet") (Some ("30", "USD")) None;
          LedgerWriter.mk_entry (from_type +:+ ":" +:+ "Checking") None None ]
    ∧ AndroMoneyReader.TO_ACCOUNT_TYPE !! "Transfer" = Some to_type
    ∧ AndroMoneyReader.FROM_ACCOUNT_TYPE !! "Transfer" = Some from_type
    ∧ (("Transfer" = "SYSTEM" ∧ from_type = "Equity" ∧ to_type = "Asset")
       ∨ ("Transfer" = "Transfer" ∧ from_type = "Asset" ∧ to_type = "Asset")
       ∨ ("Transfer" = "Income" ∧ from_type = "Income" ∧ to_type = "Asset")
       ∨ ("Transfer" ≠ "SYSTEM" ∧ "Transfer" ≠ "Transfer" ∧ "Transfer" ≠ "Income"
          ∧ "Transfer" = "Expense" ∧ from_type = "Asset" ∧ to_type = "Expenses")).
Proof.
  apply (C4_account_namespaces init_date (transfer_row "Bob") (transfer_parsed "Bob")
           transfer_returned (mk_datetime 2021 3 6 9 5)); reflexivity.
Defined.

(** C5 on the example of the specification: the status ["2"]. *)
Lemma C5_status_2 :
  ∃ e, AndroMoneyReader.body init_date
         (sample_row "30" "Income" "Salary" "20210307" "Employer" "Checking" "" "125" "900" "2")
       = AndroMoneyReader.Fail e
       ∧ DataIntegrityError e = true.
Proof. eexists. split; reflexivity. Qed.

(** The claim C6 as it is written fails for the transaction itself: an
    effective date there makes [write] stop on the attribute [self.file]
    after the date has been written, and what is raised is not an
    UnsupportedFeatureError. *)
Lemma C6_counterexample :
  LedgerWriter.write LedgerWriter.__init__ bob_date "Bob" (Some bob_date) bob_legs ""
    bob_tags ""
  = (Raise (AttributeError "file"), "2021-03-05")
  ∧ ¬ ∃ e file',
        LedgerWriter.write LedgerWriter.__init__ bob_date "Bob" (Some bob_date) bob_legs ""
          bob_tags ""
        = (Raise e, file')
        ∧ UnsupportedFeatureError e = true.
Proof.
  split; [reflexivity|].
  intros (e & file' & Hwrite & He).
  vm_compute in Hwrite. injection Hwrite as <- _. discriminate.
Qed.

(** C6 on a transaction whose second leg has effective dates. *)
Lemma C6_witness :
  (∃ e file',
     LedgerWriter.write LedgerWriter.__init__ bob_date "Bob" None
       [ LedgerWriter.mk_entry "Expenses:Food:Lunch" (Some ("12.50", "USD")) None;
         dated_leg ] "" bob_tags ""
     = (Raise e, file')
     ∧ UnsupportedFeatureError e = true)
  ∧ (∀ account amount effective_date,
       ∃ e file',
         LedgerWriter.write_single_account LedgerWriter.__init__ account amount
           (Some effective_date) ""
         = (Raise e, file')
         ∧ UnsupportedFeatureError e = true).
Proof.
  apply C6_leg_effective_dates_unsupported.
  apply Exists_cons_tl, Exists_cons_hd. simpl. discriminate.
Defined.

(** C8 on a transfer followed by an opening balance. *)
Lemma C8_witness :
  ("Transfer" ≠ "SYSTEM" → AndroMoneyReader.status_ok (Some 1) = true →
     ∃ t0,
       AndroMoneyReader.__next__
         (AndroMoneyReader.mk [transfer_row "Bob"; opening_row "1000"] init_date)
       = (Return t0, AndroMoneyReader.mk [opening_row "1000"] (mk_datetime 2021 3 6 9 5))
       ∧ result.time t0 = mk_datetime 2021 3 6 9 5)
  ∧ ("Transfer" = "SYSTEM" →
       (∃ t0,
          AndroMoneyReader.__next__
            (AndroMoneyReader.mk [transfer_row "Bob"; opening_row "1000"] init_date)
          = (Return t0, AndroMoneyReader.mk [opening_row "1000"] init_date))
       ∨ (AndroMoneyReader.body init_date (transfer_row "Bob") = AndroMoneyReader.Again
          ∧ AndroMoneyReader.__next__
              (AndroMoneyReader.mk [transfer_row "Bob"; opening_row "1000"] init_date)
            = AndroMoneyReader.__next__
                (AndroMoneyReader.mk [opening_row "1000"] init_date))
       ∨ (∃ e,
            AndroMoneyReader.__next__
              (AndroMoneyReader.mk [transfer_row "Bob"; opening_row "1000"] init_date)
            = (Raise e, AndroMoneyReader.mk [opening_row "1000"] init_date))).
Proof.
  apply (C8_curr_date_frame init_date (transfer_row "Bob") (transfer_parsed "Bob")
           [opening_row "1000"]).
  reflexivity.
Defined.

(** The claim C9 as it is written fails for an expense: two rows that differ
    in column 11 only give two different ledgers, each with its own payee in
    the title line. *)
Lemma C9_counterexample :
  lunch_row "Alice" = <[11%nat := "Alice"]> (lunch_row "Bob")
  ∧ generateLedger (AndroMoneyReader.__init__ [lunch_row "Bob"] init_date)
    = Some (Return tt, bob_block)
  ∧ generateLedger (AndroMoneyReader.__init__ [lunch_row "Alice"] init_date)
    ≠ generateLedger (AndroMoneyReader.__init__ [lunch_row "Bob"] init_date).
Proof.
  split; [reflexivity|]. split; [vm_compute; reflexivity|].
  intros H. vm_compute in H. discriminate.
Qed.

(** C9 on a transfer whose payee column changes. *)
Lemma C9_witness :
  (∃ out1 out2 file,
     generateLedger
       (AndroMoneyReader.mk [transfer_row "Alice"; opening_row "1000"] init_date)
     = Some (out1, file)
     ∧ generateLedger
         (AndroMoneyReader.mk [transfer_row "Bob"; opening_row "1000"] init_date)
       = Some (out2, file)
     ∧ raised out1 = raised out2)
  ∧ (∀ row r t0 curr',
       AndroMoneyReader.parse row = Return r →
       result.category r ≠ "SYSTEM" →
       result.category r ≠ "Transfer" →
       AndroMoneyReader.body init_date row = AndroMoneyReader.Yield t0 curr' →
       row !! 11%nat = Some (result.payee t0)).
Proof.
  apply C9_payee_overwritten_for_system_and_transfer.
  constructor; [|constructor; [|constructor]].
  - right. exists "Bob". split; [reflexivity|]. right. reflexivity.
  - left. reflexivity.
Defined.

(** C10 on a stream whose first row is passed over: two nested calls. *)
Lemma C10_witness :
  let self :=
    AndroMoneyReader.mk [opening_row "0.0000001"; lunch_row "Bob"] init_date in
  AndroMoneyReader.next_within 3 self = Some (AndroMoneyReader.__next__ self)
  ∧ (∃ consumed,
       AndroMoneyReader.reader self
       = (consumed ++ AndroMoneyReader.reader (AndroMoneyReader.__next__ self).2)%list
       ∧ (AndroMoneyReader.reader self ≠ [] → consumed ≠ []))
  ∧ ((∃ t0, (AndroMoneyReader.__next__ self).1 = Return t0)
     ∨ ((AndroMoneyReader.__next__ self).1 = Raise StopIteration
        ∧ AndroMoneyReader.reader (AndroMoneyReader.__next__ self).2 = [])
     ∨ (∃ e, (AndroMoneyReader.__next__ self).1 = Raise e ∧ e ≠ StopIteration)).
Proof.
  intros self. apply (C10_next_terminates self 3). simpl. lia.
Defined.

(** * Further properties of the code *)

(** ** What [__next__] returns *)

Section Returned.
Import AndroMoneyReader.

(** The columns that the row parser copies into the dictionary as they are. *)
Lemma parse_copies (row : list string) (r : result.t) :
  parse row = Return r →
  row !! 1%nat = Some (result.currency r)
  ∧ row !! 2%nat = Some (result.amount r)
  ∧ row !! 8%nat = Some (result.remark r)
  ∧ row !! 9%nat = Some (result.periodic r)
  ∧ row !! 10%nat = Some (result.project r)
  ∧ row !! 12%nat = Some (result.uid r)
  ∧ (∃ f0, row !! 0%nat = Some f0 ∧ int f0 = Return (result.id r)).
Proof.
  unfold parse. intros H. py_inv H. injection H as <-. simpl.
  repeat split; eauto.
Qed.

(** The updates that the body of [__next__] makes leave these fields alone. *)
Lemma body_copies (curr : datetime) (row : list string) (r t0 : result.t)
    (curr' : datetime) :
  parse row = Return r →
  body curr row = Yield t0 curr' →
  result.id t0 = result.id r
  ∧ result.currency t0 = result.currency r
  ∧ result.amount t0 = result.amount r
  ∧ result.remark t0 = result.remark r
  ∧ result.periodic t0 = result.periodic r
  ∧ result.project t0 = result.project r
  ∧ result.uid t0 = result.uid r
  ∧ result.status t0 = result.status r
  ∧ status_ok (result.status r) = true
  ∧ result.sub_category t0 = None
  ∧ (result.category t0 = "SYSTEM" ∨ result.category t0 = "Transfer"
     ∨ result.category t0 = "Income" ∨ result.category t0 = "Expense").
Proof.
  intros Hparse Hbody.
  destruct (parse_fields _ _ Hparse) as (_ & _ & (sub & _ & Hsub) & _).
  destruct (status_ok (result.status r)) eqn:Hst.
  2:{ rewrite (body_bad_status curr row r Hparse Hst) in Hbody. discriminate. }
  destruct (String.eqb_spec (result.category r) "SYSTEM") as [H1|H1].
  { destruct (body_system_yield curr row r t0 curr' Hparse H1 Hbody) as [-> _].
    simpl. rewrite H1. repeat split; auto. }
  destruct (String.eqb_spec (result.category r) "Transfer") as [H2|H2].
  { rewrite (body_transfer curr row r Hparse Hst sub H2 Hsub) in Hbody.
    injection Hbody as <- <-. simpl. rewrite H2. repeat split; auto. }
  destruct (String.eqb_spec (result.category r) "Income") as [H3|H3].
  { rewrite (body_income curr row r Hparse Hst sub H3 Hsub) in Hbody.
    injection Hbody as <- <-. simpl. rewrite H3. repeat split; auto. }
  rewrite (body_expense curr row r Hparse Hst sub H1 H2 H3 Hsub) in Hbody.
  injection Hbody as <- <-. simpl. repeat split; auto.
Qed.

(** What [__next__] returns was made by its body from one row of the
    stream. *)
Lemma next_from_Return (rows : list (list string)) (curr : datetime)
    (t0 : result.t) (self' : t) :
  next_from rows curr = (Return t0, self') →
  ∃ row curr', row ∈ rows ∧ body curr row = Yield t0 curr'.
Proof.
  induction rows as [|row rows IH]; simpl; [discriminate|].
  destruct (body curr row) as [t1 c1| |e] eqn:Hbody.
  - intros [= <- <-]. exists row, c1. split; [left | assumption].
  - intros H. destruct (IH H) as (row' & curr' & Hin & Hb).
    exists row', curr'. split; [right; assumption | assumption].
  - discriminate.
Qed.

Lemma body_Yield_parse (curr : datetime) (row : list string) (t0 : result.t)
    (curr' : datetime) :
  body curr row = Yield t0 curr' → ∃ r, parse row = Return r.
Proof.
  intros Hbody. destruct (parse row) as [r|e] eqn:Hparse; [eauto|].
  rewrite (body_parse_error curr row e Hparse) in Hbody. discriminate.
Qed.

(** X1. Every dictionary that [__next__] returns has a status that is absent,
    0 or 1, one of the four category tags, and no sub-category key. *)
Theorem X1_returned_invariant (self : t) (t0 : result.t) (self' : t) :
  __next__ self = (Return t0, self') →
  status_ok (result.status t0) = true
  ∧ result.sub_category t0 = None
  ∧ (result.category t0 = "SYSTEM" ∨ result.category t0 = "Transfer"
     ∨ result.category t0 = "Income" ∨ result.category t0 = "Expense").
Proof.
  unfold __next__. intros H.
  destruct (next_from_Return _ _ _ _ H) as (row & curr' & _ & Hbody).
  destruct (body_Yield_parse _ _ _ _ Hbody) as [r Hparse].
  destruct (body_copies _ _ _ _ _ Hparse Hbody)
    as (_ & _ & _ & _ & _ & _ & _ & Hst & Hok & Hsub & Hcat).
  rewrite Hst. auto.
Qed.

(** X2. What [__next__] returns comes from one row of the stream, and its
    currency, amount, remark, periodic flag, project and uid are the text of
    columns 1, 2, 8, 9, 10 and 12 of that row, unchanged; the amount is not
    rounded or reformatted. *)
Theorem X2_columns_passed_through (self : t) (t0 : result.t) (self' : t) :
  __next__ self = (Return t0, self') →
  ∃ row, row ∈ reader self
    ∧ row !! 1%nat = Some (result.currency t0)
    ∧ row !! 2%nat = Some (result.amount t0)
    ∧ row !! 8%nat = Some (result.remark t0)
    ∧ row !! 9%nat = Some (result.periodic t0)
    ∧ row !! 10%nat = Some (result.project t0)
    ∧ row !! 12%nat = Some (result.uid t0).
Proof.
  unfold __next__. intros H.
  destruct (next_from_Return _ _ _ _ H) as (row & curr' & Hin & Hbody).
  destruct (body_Yield_parse _ _ _ _ Hbody) as [r Hparse].
  destruct (body_copies _ _ _ _ _ Hparse Hbody)
    as (_ & -> & -> & -> & -> & -> & -> & _).
  destruct (parse_copies _ _ Hparse) as (? & ? & ? & ? & ? & ? & _).
  exists row. repeat split; assumption.
Qed.

End Returned.

(** ** The formatter only appends *)

Section Appends.
Import LedgerWriter.

Lemma append_assoc (s1 s2 s3 : string) : (s1 +:+ s2) +:+ s3 = s1 +:+ (s2 +:+ s3).
Proof.
  induction s1 as [|c s1 IH]; [reflexivity|].
  change (String c ((s1 +:+ s2) +:+ s3) = String c (s1 +:+ (s2 +:+ s3))).
  rewrite IH. reflexivity.
Qed.

Lemma append_nil_r (s : string) : s +:+ "" = s.
Proof.
  induction s as [|c s IH]; [reflexivity|].
  change (String c (s +:+ "") = String c s). rewrite IH. reflexivity.
Qed.

Lemma appends_ret {A} (a : A) : appends (io_ret a).
Proof. intros file. unfold io_ret. simpl. rewrite append_nil_r. reflexivity. Qed.

Lemma appends_raise {A} (e : exn) : appends (@io_raise A e).
Proof. intros file. unfold io_raise. simpl. rewrite append_nil_r. reflexivity. Qed.

Lemma appends_file_write (text : string) : appends (file_write text).
Proof. intros file. reflexivity. Qed.

Lemma appends_bind {A B} (m : io A) (k : A → io B) :
  appends m → (∀ a, appends (k a)) → appends (m ≫= k).
Proof.
  intros Hm Hk file. unfold mbind, io_mbind, io_bind.
  rewrite (Hm file). destruct (m "") as [[a|e] text]; simpl.
  - rewrite (Hk a (file +:+ text)), (Hk a text). simpl.
    rewrite append_assoc. reflexivity.
  - reflexivity.
Qed.

Lemma appends_for_each {A} (xs : list A) (f : A → io unit) :
  (∀ x, appends (f x)) → appends (for_each xs f).
Proof.
  intros Hf. induction xs as [|x xs IH]; simpl.
  - apply appends_ret.
  - apply appends_bind; [apply Hf | intros _; exact IH].
Qed.

Lemma appends_write_tag (self : t) (tag value : string) :
  appends (write_tag self tag value).
Proof. apply appends_file_write. Qed.

Lemma appends_write_single_account (self : t) (account : string)
    (amount : option (string * string)) (effective_date : option datetime) :
  appends (write_single_account self account amount effective_date).
Proof.
  unfold write_single_account.
  apply appends_bind; [apply appends_file_write | intros _].
  apply appends_bind.
  { destruct amount as [[number currency]|]; [apply appends_file_write | apply appends_ret]. }
  intros _. apply appends_bind; [|intros _; apply appends_file_write].
  destruct effective_date; [apply appends_raise | apply appends_ret].
Qed.

Lemma appends_write (self : t) (transaction_date : datetime) (payee : string)
    (effective_date : option datetime) (legs : list entry) (remark : string)
    (tags : list (string * string)) :
  appends (write self transaction_date payee effective_date legs remark tags).
Proof.
  unfold write.
  apply appends_bind; [apply appends_file_write | intros _].
  apply appends_bind.
  { destruct effective_date; [apply appends_raise | apply appends_ret]. }
  intros _. apply appends_bind; [apply appends_file_write | intros _].
  apply appends_bind.
  { apply appends_for_each. intros leg.
    destruct (effective_dates leg);
      [apply appends_raise | apply appends_write_single_account]. }
  intros _. apply appends_bind; [|intros _; apply appends_file_write].
  apply appends_for_each. intros [tag value]. apply appends_write_tag.
Qed.

Lemma appends_write_row (writer : t) (row : result.t) : appends (write_row writer row).
Proof.
  unfold write_row. destruct (changed_account row);
    [apply appends_write | apply appends_raise].
Qed.

(** X3. The three methods of the formatter only add text at the end of the
    file: what is already written is kept as it is, also when the method
    raises, and the outcome and the text added do not depend on it. *)
Theorem X3_formatter_appends (self : t) (file : string) :
  (∀ transaction_date payee effective_date legs remark tags,
     write self transaction_date payee effective_date legs remark tags file
     = ((write self transaction_date payee effective_date legs remark tags "").1,
        file +:+ (write self transaction_date payee effective_date legs remark tags "").2))
  ∧ (∀ account amount effective_date,
       write_single_account self account amount effective_date file
       = ((write_single_account self account amount effective_date "").1,
          file +:+ (write_single_account self account amount effective_date "").2))
  ∧ (∀ tag value,
       write_tag self tag value file
       = ((write_tag self tag value "").1, file +:+ (write_tag self tag value "").2)).
Proof.
  split; [|split]; intros.
  - apply appends_write.
  - apply appends_write_single_account.
  - apply appends_write_tag.
Qed.

(** [write] goes through when no effective date is asked for. *)
Lemma write_no_dates (self : t) (transaction_date : datetime) (payee : string)
    (legs : list entry) (remark : string) (tags : list (string * string))
    (file : string) :
  Forall (λ leg, effective_dates leg = None) legs →
  (write self transaction_date payee None legs remark tags file).1 = Return tt.
Proof.
  intros Hlegs. unfold write, mbind, io_mbind, io_bind. simpl.
  generalize ((file +:+ strftime_Y_m_d transaction_date) +:+ " * " +:+ payee +:+ LF).
  induction Hlegs as [|leg legs Hleg _ IH]; intros file0; simpl.
  - generalize file0. clear. induction tags as [|[tag value] tags IH]; intros file0; simpl.
    + reflexivity.
    + unfold mbind, io_mbind, io_bind. simpl. apply IH.
  - unfold mbind, io_mbind, io_bind. rewrite Hleg.
    destruct (write_single_account_None self (account leg) (amount leg) file0) as [file1 ->].
    apply IH.
Qed.

(** X4. [write] returns normally exactly when no effective date is asked
    for, neither for the transaction nor on any leg; whatever the payee, the
    accounts, the amounts and the tags are, nothing else makes it raise. *)
Theorem X4_write_returns_iff (self : t) (transaction_date : datetime) (payee : string)
    (effective_date : option datetime) (legs : list entry) (remark : string)
    (tags : list (string * string)) (file : string) :
  (write self transaction_date payee effective_date legs remark tags file).1 = Return tt
  ↔ effective_date = None ∧ Forall (λ leg, effective_dates leg = None) legs.
Proof.
  split.
  - intros H. destruct effective_date as [d|]; [discriminate H|].
    split; [reflexivity|].
    destruct (decide (Forall (λ leg, effective_dates leg = None) legs)) as [Hall|Hnot];
      [exact Hall|].
    apply not_Forall_Exists in Hnot; [|intros leg; apply _].
    destruct (legs_effective_dates self legs
                ((file +:+ strftime_Y_m_d transaction_date) +:+ " * " +:+ payee +:+ LF) Hnot)
      as (e & file' & Hlegs & _).
    unfold write in H. unfold mbind at 1 2 3, io_mbind, io_bind in H. simpl in H.
    unfold mbind at 1, io_mbind, io_bind in H. rewrite Hlegs in H. discriminate H.
  - intros [-> Hlegs]. apply write_no_dates. exact Hlegs.
Qed.

End Appends.

(** ** Runs of [generateLedger] *)

Section Runs.
Import AndroMoneyReader.

(** The formatter accepts everything the classifier returns. *)
Lemma write_row_Yield (writer : LedgerWriter.t) (curr : datetime) (row : list string)
    (t0 : result.t) (curr' : datetime) (file : string) :
  body curr row = Yield t0 curr' →
  (write_row writer t0 file).1 = Return tt.
Proof.
  intros Hbody.
  destruct (body_Yield_parse _ _ _ _ Hbody) as [r Hparse].
  destruct (body_copies _ _ _ _ _ Hparse Hbody)
    as (_ & _ & _ & _ & _ & _ & _ & _ & _ & _ & Hcat).
  unfold write_row, changed_account.
  destruct Hcat as [-> | [-> | [-> | ->]]]; simpl;
    apply write_no_dates; repeat constructor.
Qed.

(** What a run can raise. *)
Lemma ledger_of_rows_Raise (writer : LedgerWriter.t) (rows : list (list string))
    (curr : datetime) (file : string) (e : exn) :
  (ledger_of_rows writer rows curr file).1 = Raise e →
  ParseError e = true ∨ DataIntegrityError e = true.
Proof.
  revert curr file. induction rows as [|row rows IH]; intros curr file; simpl.
  - discriminate.
  - destruct (body curr row) as [t0 curr'| |e'] eqn:Hbody.
    + pose proof (write_row_Yield writer curr row t0 curr' file Hbody) as Hw.
      destruct (write_row writer t0 file) as [[[]|e'] file']; [apply IH | discriminate Hw].
    + apply IH.
    + simpl. intros [= <-]. exact (body_Fail _ _ _ Hbody).
Qed.

(** Whether a row is passed over does not depend on the running date. *)
Lemma body_Again_any (curr curr' : datetime) (row : list string) :
  body curr row = Again → body curr' row = Again.
Proof.
  unfold body. destruct (parse row) as [r|e]; [|discriminate].
  destruct (negb (status_ok (result.status r))); [discriminate|].
  destruct (String.eqb (result.category r) "SYSTEM"); [|discriminate].
  destruct (negb _); [discriminate|].
  destruct (float (result.amount r)) as [x|e]; [|discriminate].
  destruct (le_1e_6 x); [reflexivity | discriminate].
Qed.

Lemma ledger_of_rows_skip (writer : LedgerWriter.t) (rows1 rows2 : list (list string))
    (row : list string) (curr0 curr : datetime) (file : string) :
  body curr0 row = Again →
  ledger_of_rows writer (rows1 ++ row :: rows2) curr file
  = ledger_of_rows writer (rows1 ++ rows2) curr file.
Proof.
  intros Hskip. revert curr file.
  induction rows1 as [|row1 rows1 IH]; intros curr file; simpl.
  - rewrite (body_Again_any curr0 curr row Hskip). reflexivity.
  - destruct (body curr row1) as [t0 curr'| |e]; [|apply IH|reflexivity].
    destruct (write_row writer t0 file) as [[[]|e] file']; [apply IH | reflexivity].
Qed.

Lemma appends_ledger_of_rows (writer : LedgerWriter.t) (rows : list (list string))
    (curr : datetime) :
  appends (ledger_of_rows writer rows curr).
Proof.
  revert curr. induction rows as [|row rows IH]; intros curr file; simpl.
  - rewrite append_nil_r. reflexivity.
  - destruct (body curr row) as [t0 curr'| |e].
    + rewrite (appends_write_row writer t0 file).
      destruct (write_row writer t0 "") as [[[]|e] text]; simpl.
      * rewrite (IH curr' (file +:+ text)), (IH curr' text). simpl.
        rewrite append_assoc. reflexivity.
      * reflexivity.
    + apply IH.
    + simpl. rewrite append_nil_r. reflexivity.
Qed.

Lemma ledger_of_rows_app (writer : LedgerWriter.t) (rows1 rows2 : list (list string))
    (curr : datetime) (file : string) :
  ledger_of_rows writer (rows1 ++ rows2) curr file
  = match ledger_of_rows writer rows1 curr file with
    | (Return _, file1) =>
        ledger_of_rows writer rows2 (curr_date_after rows1 curr) file1
    | (Raise e, file1) => (Raise e, file1)
    end.
Proof.
  revert curr file. induction rows1 as [|row rows1 IH]; intros curr file; simpl.
  - reflexivity.
  - destruct (body curr row) as [t0 curr'| |e]; [|apply IH|reflexivity].
    destruct (write_row writer t0 file) as [[[]|e] file']; [apply IH | reflexivity].
Qed.


Lemma leading_skips_longest (rows : list (list string)) :
  (leading_skips rows ≤ longest_skip_run rows)%nat.
Proof. destruct rows as [|row rows]; [reflexivity|]. simpl. lia. Qed.

Lemma longest_skip_run_suffix (rows1 rows2 : list (list string)) :
  (longest_skip_run rows2 ≤ longest_skip_run (rows1 ++ rows2))%nat.
Proof. induction rows1 as [|row rows1 IH]; simpl; lia. Qed.

Lemma leading_skips_prefix (rows1 rows2 : list (list string)) :
  (leading_skips rows1 ≤ leading_skips (rows1 ++ rows2))%nat.
Proof.
  induction rows1 as [|row rows1 IH]; simpl; [lia|]. destruct (skipped row); lia.
Qed.

Lemma longest_skip_run_prefix (rows1 rows2 : list (list string)) :
  (longest_skip_run rows1 ≤ longest_skip_run (rows1 ++ rows2))%nat.
Proof.
  induction rows1 as [|row rows1 IH]; [simpl; lia|].
  pose proof (leading_skips_prefix (row :: rows1) rows2) as Hlead.
  change (Nat.max (leading_skips (row :: rows1)) (longest_skip_run rows1)
          ≤ Nat.max (leading_skips ((row :: rows1) ++ rows2))
                    (longest_skip_run (rows1 ++ rows2)))%nat.
  lia.
Qed.

Lemma leading_skips_remove (rows1 rows2 : list (list string)) (row : list string) :
  skipped row = true →
  (leading_skips (rows1 ++ rows2) ≤ leading_skips (rows1 ++ row :: rows2))%nat.
Proof.
  intros Hrow. induction rows1 as [|row1 rows1 IH]; simpl.
  - rewrite Hrow. lia.
  - destruct (skipped row1); lia.
Qed.

Lemma longest_skip_run_remove (rows1 rows2 : list (list string)) (row : list string) :
  skipped row = true →
  (longest_skip_run (rows1 ++ rows2) ≤ longest_skip_run (rows1 ++ row :: rows2))%nat.
Proof.
  intros Hrow. induction rows1 as [|row1 rows1 IH].
  - simpl. lia.
  - pose proof (leading_skips_remove (row1 :: rows1) rows2 row Hrow) as Hlead.
    change (Nat.max (leading_skips ((row1 :: rows1) ++ rows2))
                    (longest_skip_run (rows1 ++ rows2))
            ≤ Nat.max (leading_skips ((row1 :: rows1) ++ row :: rows2))
                      (longest_skip_run (rows1 ++ row :: rows2)))%nat.
    lia.
Qed.

(** A run stays under the recursion limit when no run of rows passed over is
    as long as the limit, and then it is the run that [ledger_of_rows]
    describes. *)
Lemma ledger_loop_within_enough (limit turns : nat) (writer : LedgerWriter.t)
    (rows : list (list string)) (curr : datetime) (file : string) :
  (length rows < turns)%nat →
  (longest_skip_run rows < limit)%nat →
  ledger_loop_within limit turns writer (mk rows curr) file
  = Some (ending_of (ledger_of_rows writer rows curr file).1,
          (ledger_of_rows writer rows curr file).2).
Proof.
  revert rows curr file.
  induction turns as [|turns IH]; intros rows curr file Hlen Hrun; [lia|].
  simpl. rewrite next_within_leading.
  pose proof (leading_skips_longest rows) as Hlead.
  destruct (Nat.ltb_spec (leading_skips rows) limit) as [_|Hge]; [|lia].
  pose proof (next_from_ledger writer rows curr file) as Hnext.
  destruct (next_from_consumes rows curr) as (consumed & Hrows & _).
  destruct (next_from rows curr) as [[t0|e] [rows' curr']]; simpl in Hrows.
  - destruct Hnext as [Hlen' ->]. simpl in Hlen'.
    destruct (write_row writer t0 file) as [[[]|e] file']; [|reflexivity].
    apply IH; simpl; [lia|].
    pose proof (longest_skip_run_suffix consumed rows') as Hsuffix.
    rewrite <- Hrows in Hsuffix. lia.
  - destruct e; rewrite Hnext; reflexivity.
Qed.

Lemma generateLedger_within_rows (limit : nat) (rows : list (list string))
    (curr : datetime) :
  (longest_skip_run rows < limit)%nat →
  generateLedger_within limit (mk rows curr)
  = Some (ending_of (ledger_of_rows LedgerWriter.__init__ rows curr "").1,
          (ledger_of_rows LedgerWriter.__init__ rows curr "").2).
Proof.
  intros Hrun. unfold generateLedger_within.
  apply ledger_loop_within_enough; [simpl; lia | exact Hrun].
Qed.



(** X6. A row that [__next__] passes over (an opening balance with an amount
    of at most 1e-6) leaves no trace, as long as the rows passed over in a
    row stay fewer than the nested calls that the interpreter allows: the run
    on a stream with such a row anywhere in it gives the same ledger, and
    ends the same way, as the run on the stream without it. *)
Theorem X6_skipped_row_leaves_no_trace (limit : nat)
    (rows1 rows2 : list (list string)) (row : list string) (curr0 curr : datetime) :
  body curr0 row = Again →
  (longest_skip_run (rows1 ++ row :: rows2) < limit)%nat →
  generateLedger_within limit (mk (rows1 ++ row :: rows2) curr)
  = generateLedger_within limit (mk (rows1 ++ rows2) curr).
Proof.
  intros Hskip Hrun.
  assert (skipped row = true) as Hrow by (apply (skipped_Again curr0); exact Hskip).
  pose proof (longest_skip_run_remove rows1 rows2 row Hrow) as Hless.
  rewrite !generateLedger_within_rows by lia.
  rewrite (ledger_of_rows_skip _ rows1 rows2 row curr0 curr "" Hskip). reflexivity.
Qed.

(** X7. The ledger of a stream is the ledger of its first part followed by
    the ledger of the rest, when the rest is read with the running date that
    the first part leaves, as long as the rows passed over in a row, across
    the cut too, stay fewer than the nested calls that the interpreter
    allows; when the first part fails, the run stops there with the ledger
    written so far. *)
Theorem X7_run_of_concatenation (limit : nat)
    (rows1 rows2 : list (list string)) (curr : datetime) :
  (longest_skip_run (rows1 ++ rows2) < limit)%nat →
  ∃ how1 file1,
    generateLedger_within limit (mk rows1 curr) = Some (how1, file1)
    ∧ match how1 with
      | Finished =>
          ∃ how2 file2,
            generateLedger_within limit (mk rows2 (curr_date_after rows1 curr))
            = Some (how2, file2)
            ∧ generateLedger_within limit (mk (rows1 ++ rows2) curr)
              = Some (how2, file1 +:+ file2)
      | _ =>
          generateLedger_within limit (mk (rows1 ++ rows2) curr) = Some (how1, file1)
      end.
Proof.
  intros Hrun.
  pose proof (longest_skip_run_prefix rows1 rows2) as Hpre.
  pose proof (longest_skip_run_suffix rows1 rows2) as Hsuf.
  rewrite (generateLedger_within_rows limit rows1 curr) by lia.
  rewrite (generateLedger_within_rows limit (rows1 ++ rows2) curr) by lia.
  rewrite (generateLedger_within_rows limit rows2 (curr_date_after rows1 curr)) by lia.
  rewrite ledger_of_rows_app.
  destruct (ledger_of_rows LedgerWriter.__init__ rows1 curr "") as [[[]|e] file1].
  - exists Finished, file1. split; [reflexivity|].
    rewrite (appends_ledger_of_rows LedgerWriter.__init__ rows2 _ file1).
    destruct (ledger_of_rows LedgerWriter.__init__ rows2 _ "") as [out2 file2].
    exists (ending_of out2), file2. split; reflexivity.
  - exists (Raised e), file1. split; reflexivity.
Qed.

End Runs.

(** ** Amounts below zero *)

Section Negative.
Import AndroMoneyReader.

(** A literal that starts with a minus sign reads as not-a-number or as
    something that is at most [1e-6]. *)
Lemma float_minus (s : string) (x : pyfloat) :
  float (String "-" s) = Return x → x = nan ∨ le_1e_6 x = true.
Proof.
  unfold float, strip.
  change (lstrip (String "-" s)) with (String "-" s).
  assert (∃ rest, rstrip (String "-" s) = String "-" rest) as [rest ->].
  { change (rstrip (String "-" s))
      with (match rstrip s with
            | EmptyString => String "-" EmptyString
            | String c t => String "-" (String c t)
            end).
    destruct (rstrip s); eauto. }
  change (sign (String "-" rest)) with (true, rest).
  cbv beta iota.
  destruct (String.eqb (lower_str rest) "inf" || String.eqb (lower_str rest) "infinity").
  { intros [= <-]. right. reflexivity. }
  destruct (String.eqb (lower_str rest) "nan").
  { intros [= <-]. left. reflexivity. }
  destruct (number rest) as [[[m k] rest']|]; [|discriminate].
  destruct (exponent rest') as [[e [|c rest'']]|]; try discriminate.
  intros [= <-]. right. reflexivity.
Qed.

(** X8. An opening-balance row whose amount starts with a minus sign is never
    turned into a transaction for that amount: it is passed over like a zero
    amount, or refused as unreadable; only the literal that reads as
    not-a-number is returned. *)
Theorem X8_negative_opening_balance
    (curr : datetime) (row : list string) (r : result.t) (digits : string) :
  parse row = Return r →
  status_ok (result.status r) = true →
  result.category r = "SYSTEM" →
  result.sub_category r = Some "INIT_AMOUNT" →
  result.amount r = String "-" digits →
  body curr row = Again
  ∨ (∃ e, body curr row = Fail e ∧ ParseError e = true)
  ∨ (float (result.amount r) = Return nan ∧ ∃ t0, body curr row = Yield t0 curr).
Proof.
  intros Hparse Hst Hcat Hsub Hamount.
  rewrite (body_system curr row r Hparse Hst Hcat Hsub).
  destruct (float (result.amount r)) as [x|e] eqn:Hf.
  - rewrite Hamount in Hf. destruct (float_minus _ _ Hf) as [-> | Hle].
    + right. right. split; [reflexivity|]. simpl. eauto.
    + rewrite Hle. left. reflexivity.
  - right. left. exists e. split; [reflexivity | exact (float_Raise _ _ Hf)].
Qed.

End Negative.

(** ** The text of tags and accounts *)

Section Text.
Import LedgerWriter.

Lemma append_cons (c : ascii) (s1 s2 : string) :
  String c s1 +:+ s2 = String c (s1 +:+ s2).
Proof. reflexivity. Qed.

Lemma string_of_list_ascii_app (l1 l2 : list ascii) :
  string_of_list_ascii (l1 ++ l2) = string_of_list_ascii l1 +:+ string_of_list_ascii l2.
Proof.
  induction l1 as [|c l1 IH]; [reflexivity|].
  change (String c (string_of_list_ascii (l1 ++ l2))
          = String c (string_of_list_ascii l1 +:+ string_of_list_ascii l2)).
  rewrite IH. reflexivity.
Qed.

Lemma occurs_app (c : ascii) (s1 s2 : string) :
  occurs c (s1 +:+ s2) = occurs c s1 || occurs c s2.
Proof.
  induction s1 as [|x s1 IH]; [reflexivity|].
  rewrite append_cons. simpl. rewrite IH, orb_assoc. reflexivity.
Qed.

Lemma has_space_app (s1 s2 : string) :
  has_space (s1 +:+ s2) = has_space s1 || has_space s2.
Proof.
  induction s1 as [|x s1 IH]; [reflexivity|].
  rewrite append_cons. simpl. rewrite IH, orb_assoc. reflexivity.
Qed.

(** A text without blanks has no line feed. *)
Lemma occurs_LF_has_space (s : string) : has_space s = false → occurs "010" s = false.
Proof.
  induction s as [|x s IH]; [reflexivity|]. simpl.
  intros [Hx Hs]%orb_false_elim. rewrite (IH Hs), orb_false_r.
  destruct (Ascii.eqb_spec x "010") as [->|]; [discriminate Hx | reflexivity].
Qed.

Lemma occurs_repeat_char (c x : ascii) (n : nat) :
  Ascii.eqb x c = false → occurs c (repeat_char x n) = false.
Proof. intros H. induction n as [|n IH]; simpl; [reflexivity | rewrite H, IH; reflexivity]. Qed.

Lemma occurs_replace_char (a b : ascii) (s : string) :
  Ascii.eqb b a = false → occurs a (replace_char a b s) = false.
Proof.
  intros H. induction s as [|x s IH]; simpl; [reflexivity|]. rewrite IH, orb_false_r.
  destruct (Ascii.eqb_spec x a) as [->|Hx]; [exact H|].
  apply Ascii.eqb_neq. exact Hx.
Qed.

Lemma split_on_aux_cons (sep : ascii) (cur : list ascii) (s : string) :
  ∃ piece pieces, split_on_aux sep cur s = piece :: pieces.
Proof.
  revert cur. induction s as [|c s IH]; intros cur; simpl; [eauto|].
  destruct (Ascii.eqb c sep); [eauto | apply IH].
Qed.

(** [b.join(s.split(a))] replaces every [a] by [b]. *)
Lemma join_split_on_aux (a b : ascii) (cur : list ascii) (s : string) :
  join (String b "") (split_on_aux a cur s)
  = string_of_list_ascii (rev cur) +:+ replace_char a b s.
Proof.
  revert cur. induction s as [|c s IH]; intros cur; simpl.
  - rewrite append_nil_r. reflexivity.
  - destruct (Ascii.eqb c a).
    + specialize (IH []). destruct (split_on_aux_cons a [] s) as (piece & pieces & Hs).
      rewrite Hs in *.
      change (join (String b "") (string_of_list_ascii (rev cur) :: piece :: pieces))
        with (string_of_list_ascii (rev cur) +:+ String b "" +:+ join (String b "") (piece :: pieces)).
      rewrite IH. reflexivity.
    + rewrite IH. simpl. rewrite string_of_list_ascii_app, append_assoc. reflexivity.
Qed.

Lemma join_split_on (a b : ascii) (s : string) :
  join (String b "") (split_on a s) = replace_char a b s.
Proof. unfold split_on. rewrite join_split_on_aux. reflexivity. Qed.

Lemma has_space_string_of_list (l : list ascii) :
  Forall (λ c, isspace c = false) l → has_space (string_of_list_ascii l) = false.
Proof. induction 1 as [|c l Hc _ IH]; simpl; [reflexivity | rewrite Hc, IH; reflexivity]. Qed.

(** The pieces of [s.split()] are not empty and have no blank in them. *)
Lemma split_ws_aux_words (cur : list ascii) (s : string) :
  Forall (λ c, isspace c = false) cur →
  Forall (λ w, has_space w = false ∧ w ≠ "") (split_ws_aux cur s).
Proof.
  assert (∀ cur, Forall (λ c, isspace c = false) cur →
            Forall (λ w, has_space w = false ∧ w ≠ "")
              (match cur with [] => [] | _ => [string_of_list_ascii (rev cur)] end))
    as Hflush.
  { intros [|c cur'] Hcur; constructor; [|constructor]. split.
    - apply has_space_string_of_list. apply Forall_rev. exact Hcur.
    - simpl. rewrite string_of_list_ascii_app. destruct (string_of_list_ascii (rev cur'));
        discriminate. }
  revert cur. induction s as [|c s IH]; intros cur Hcur; simpl.
  - apply Hflush, Hcur.
  - destruct (isspace c) eqn:Hc.
    + apply Forall_app. split; [apply Hflush, Hcur | apply IH; constructor].
    + apply IH. constructor; assumption.
Qed.

Lemma has_space_join (sep : string) (ws : list string) :
  has_space sep = false →
  Forall (λ w, has_space w = false ∧ w ≠ "") ws →
  has_space (join sep ws) = false.
Proof.
  intros Hsep Hws. induction Hws as [|w ws [Hw _] Hws' IH]; [reflexivity|].
  destruct ws as [|w' ws]; [exact Hw|].
  change (join sep (w :: w' :: ws)) with (w +:+ sep +:+ join sep (w' :: ws)).
  rewrite !has_space_app, Hw, Hsep, IH. reflexivity.
Qed.

(** X9. A tag is written on one line of its own: the line is the indent,
    ["; :"], the tag name with every run of blanks turned into one underscore
    (so that the name has no blank left), [": "], and the value with every
    line feed replaced by a space; the only line feed written is the one that
    ends the line. *)
Theorem X9_tag_line (self : t) (tag value file : string) :
  ∃ name,
    write_tag self tag value file
    = (Return tt,
       file +:+ (repeat_char " " (indent self) +:+ "; :" +:+ name +:+ ": "
                 +:+ replace_char "010" " " value) +:+ LF)
    ∧ name = join "_" (split_ws tag)
    ∧ has_space name = false
    ∧ occurs "010" (repeat_char " " (indent self) +:+ "; :" +:+ name +:+ ": "
                    +:+ replace_char "010" " " value) = false.
Proof.
  exists (join "_" (split_ws tag)).
  assert (has_space (join "_" (split_ws tag)) = false) as Hname.
  { apply has_space_join; [reflexivity|]. apply split_ws_aux_words. constructor. }
  split; [|split; [reflexivity|split; [exact Hname|]]].
  - unfold write_tag, file_write. rewrite (join_split_on "010" " " value).
    rewrite !append_assoc. reflexivity.
  - rewrite !occurs_app.
    rewrite (occurs_repeat_char "010" " " (indent self) eq_refl).
    rewrite (occurs_LF_has_space _ Hname).
    rewrite (occurs_replace_char "010" " " value eq_refl).
    reflexivity.
Qed.

(** A word without blanks goes into the run that [s.split()] is reading. *)
Lemma split_ws_aux_word (w : string) (cur : list ascii) (s : string) :
  has_space w = false →
  split_ws_aux cur (w +:+ s) = split_ws_aux (rev (list_ascii_of_string w) ++ cur)%list s.
Proof.
  revert cur. induction w as [|c w IH]; intros cur Hw; [reflexivity|].
  simpl in Hw. apply orb_false_elim in Hw as [Hc Hw].
  rewrite append_cons. simpl. rewrite Hc, (IH _ Hw), <- app_assoc. reflexivity.
Qed.

(** Splitting the joined words gives the words back. *)
Lemma split_ws_join (ws : list string) :
  Forall (λ w, has_space w = false ∧ w ≠ "") ws →
  split_ws (join " " ws) = ws.
Proof.
  assert (∀ w, w ≠ "" →
            match (rev (list_ascii_of_string w) ++ [])%list with
            | [] => []
            | _ => [string_of_list_ascii (rev (rev (list_ascii_of_string w) ++ [])%list)]
            end = [w]) as Hflush.
  { intros w Hw. rewrite app_nil_r.
    destruct (rev (list_ascii_of_string w)) eqn:Hrev.
    - apply (f_equal (@rev ascii)) in Hrev. rewrite rev_involutive in Hrev.
      apply (f_equal string_of_list_ascii) in Hrev.
      rewrite string_of_list_ascii_of_string in Hrev. contradiction.
    - rewrite <- Hrev, rev_involutive, string_of_list_ascii_of_string. reflexivity. }
  unfold split_ws. induction 1 as [|w ws [Hw Hne] Hws IH]; [reflexivity|].
  destruct ws as [|w' ws].
  - change (join " " [w]) with w. rewrite <- (append_nil_r w) at 1.
    rewrite (split_ws_aux_word w [] "" Hw). simpl. apply Hflush, Hne.
  - change (join " " (w :: w' :: ws)) with (w +:+ String " " (join " " (w' :: ws))).
    rewrite (split_ws_aux_word w [] _ Hw).
    change (split_ws_aux (rev (list_ascii_of_string w) ++ [])%list (String " " (join " " (w' :: ws))))
      with (match (rev (list_ascii_of_string w) ++ [])%list with
            | [] => []
            | _ => [string_of_list_ascii (rev (rev (list_ascii_of_string w) ++ [])%list)]
            end ++ split_ws_aux [] (join " " (w' :: ws)))%list.
    rewrite (Hflush w Hne), IH. reflexivity.
Qed.

(** X10. The account of a leg is written with its blanks normalised: the
    words of the account, none empty and none with a blank inside, joined by
    single spaces, so no line feed either; an account that is already in
    this form is written as it is, so the method gives the same line for the
    account and for its normalised form. *)
Theorem X10_account_normalised (self : t) (account : string)
    (amount : option (string * string)) (effective_date : option datetime) :
  let print_account := join " " (split_ws account) in
  Forall (λ w, has_space w = false ∧ w ≠ "") (split_ws account)
  ∧ occurs "010" print_account = false
  ∧ join " " (split_ws print_account) = print_account
  ∧ write_single_account self print_account amount effective_date
    = write_single_account self account amount effective_date.
Proof.
  intros print_account.
  assert (Forall (λ w, has_space w = false ∧ w ≠ "") (split_ws account)) as Hws.
  { apply split_ws_aux_words. constructor. }
  assert (join " " (split_ws print_account) = print_account) as Hidem.
  { unfold print_account. rewrite (split_ws_join _ Hws). reflexivity. }
  split; [exact Hws|]. split; [|split; [exact Hidem|]].
  - unfold print_account. clear Hidem print_account.
    induction Hws as [|w ws [Hw _] Hws' IH]; [reflexivity|].
    destruct ws as [|w' ws]; [exact (occurs_LF_has_space _ Hw)|].
    change (join " " (w :: w' :: ws)) with (w +:+ String " " (join " " (w' :: ws))).
    rewrite occurs_app, (occurs_LF_has_space _ Hw). simpl. exact IH.
  - unfold write_single_account. rewrite Hidem. reflexivity.
Qed.

End Text.

(** ** The input file and the path of the ledger *)

Section Input.

Lemma rfind_lower (c : ascii) (p : list ascii) : -1 <= rfind c p.
Proof.
  induction p as [|x p IH]; simpl; [lia|].
  destruct (0 <=? rfind c p) eqn:H; [lia|]. destruct (Ascii.eqb x c); lia.
Qed.

Lemma rfind_nil_or (c : ascii) (p : list ascii) : 0 <= rfind c p → p ≠ [].
Proof. destruct p; simpl; [lia | discriminate]. Qed.

(** The two parts that [os.path.splitext] gives make up the path. *)
Lemma splitext_append (p : string) : (splitext p).1 +:+ (splitext p).2 = p.
Proof.
  unfold splitext. destruct (_ && _); simpl.
  - rewrite <- string_of_list_ascii_app, take_drop.
    apply string_of_list_ascii_of_string.
  - apply append_nil_r.
Qed.

(** An extension is cut off a root that is not empty. *)
Lemma splitext_root (p : string) : (splitext p).2 ≠ "" → (splitext p).1 ≠ "".
Proof.
  unfold splitext.
  set (l := list_ascii_of_string p).
  destruct (rfind "/" l <? rfind "." l) eqn:Hlt; simpl; [|congruence].
  destruct (splitext_loop _ _ l) eqn:Hloop; simpl; [|congruence].
  intros _. apply Z.ltb_lt in Hlt.
  pose proof (rfind_lower "/" l) as Hsep.
  destruct (Z.to_nat (rfind "." l - (rfind "/" l + 1))) as [|steps] eqn:Hsteps;
    [discriminate Hloop|].
  assert (0 < rfind "." l) as Hdot by lia.
  destruct l as [|c l']; [simpl in Hdot; lia|].
  destruct (Z.to_nat (rfind "." (c :: l'))) as [|n] eqn:Hn; [lia|].
  discriminate.
Qed.

Lemma append_inj_l (s t1 t2 : string) : s +:+ t1 = s +:+ t2 → t1 = t2.
Proof.
  induction s as [|c s IH]; [trivial|]. rewrite !append_cons. intros [= H]. exact (IH H).
Qed.

(** X11. [parseInput] gives rows only for a path that ends in [.csv] after a
    root that is not empty, and then the rows are those of the file without
    its first [ignore_row] ones; a file with fewer rows than that is an
    error, not an empty stream, while a negative [ignore_row] skips nothing. *)
Theorem X11_parseInput_rows
    (file_rows : list (list string)) (inputFile : string) (ignore_row : Z)
    (rows : list (list string)) :
  parseInput file_rows inputFile ignore_row = inr rows →
  (∃ root, inputFile = root +:+ ".csv" ∧ root ≠ "")
  ∧ (Z.to_nat ignore_row ≤ length file_rows)%nat
  ∧ rows = drop (Z.to_nat ignore_row) file_rows
  ∧ (ignore_row <= 0 → rows = file_rows)
  ∧ ∀ file_rows',
      (length file_rows' < Z.to_nat ignore_row)%nat →
      parseInput file_rows' inputFile ignore_row
      = inl (RuntimeError "generator raised StopIteration").
Proof.
  unfold parseInput.
  destruct (String.eqb_spec (splitext inputFile).2 ".csv") as [Hext|Hext].
  2:{ destruct (_ || _); discriminate. }
  destruct (Nat.leb_spec (Z.to_nat ignore_row) (length file_rows)) as [Hlen|Hlen];
    [|discriminate].
  intros [= <-]. split; [|split; [exact Hlen|split; [reflexivity|split]]].
  - exists (splitext inputFile).1. split.
    + rewrite <- Hext. symmetry. apply splitext_append.
    + apply splitext_root. rewrite Hext. discriminate.
  - intros Hneg. replace (Z.to_nat ignore_row) with 0%nat by lia. reflexivity.
  - intros file_rows' Hshort.
    destruct (Nat.leb_spec (Z.to_nat ignore_row) (length file_rows')); [lia | reflexivity].
Qed.

(** [main] hands the rows of [parseInput] to [generateLedger]. *)
Lemma main_rows (file_rows : list (list string)) (a : args) (rows : list (list string)) :
  parseInput file_rows (input a) (ignore_row a) = inr rows →
  main file_rows a
  = (output_path a,
     Some match (ledger_of_rows LedgerWriter.__init__ rows (args_init_date a) "").1 with
          | Return _ => inr tt
          | Raise e => inl (Exn e)
          end,
     (ledger_of_rows LedgerWriter.__init__ rows (args_init_date a) "").2).
Proof.
  intros Hrows. unfold main. rewrite Hrows.
  unfold AndroMoneyReader.__init__. rewrite generateLedger_rows.
  destruct (ledger_of_rows _ rows _ "") as [[[]|e] file]; reflexivity.
Qed.

(** X12. When the script is run without [--output] and [parseInput] accepts
    the input, the ledger goes to the input path with [.csv] replaced by
    [.ledger], which is never the input path itself, and the run ends (it
    does not run out of turns). *)
Theorem X12_default_output_path
    (file_rows : list (list string)) (a : args) (rows : list (list string)) :
  output a = None →
  parseInput file_rows (input a) (ignore_row a) = inr rows →
  ∃ root how file,
    input a = root +:+ ".csv"
    ∧ main file_rows a = (root +:+ ".ledger", Some how, file)
    ∧ root +:+ ".ledger" ≠ input a.
Proof.
  intros Hout Hrows.
  assert ((splitext (input a)).2 = ".csv") as Hext.
  { unfold parseInput in Hrows.
    destruct (String.eqb_spec (splitext (input a)).2 ".csv") as [Hext|Hext]; [exact Hext|].
    destruct (_ || _); discriminate. }
  assert (input a = (splitext (input a)).1 +:+ ".csv") as Hinput.
  { rewrite <- Hext. symmetry. apply splitext_append. }
  rewrite (main_rows file_rows a rows Hrows).
  unfold output_path. rewrite Hout.
  eexists _, _, _. split; [exact Hinput|]. split; [reflexivity|].
  rewrite Hinput at 2. intros H. apply append_inj_l in H. discriminate.
Qed.

(** X13. Run without [--output] on an input whose extension is [.ledger],
    the script opens its own input as the ledger: the path it writes to is
    the input path, the run fails on the extension before a row is read, and
    the file is left empty. *)
Theorem X13_ledger_input_is_emptied
    (file_rows : list (list string)) (a : args) :
  output a = None →
  (splitext (input a)).2 = ".ledger" →
  ∃ msg, main file_rows a = (input a, Some (inl (Exn (ValueError msg))), "").
Proof.
  intros Hout Hext. unfold main, parseInput, output_path. rewrite Hout, Hext. simpl.
  eexists. rewrite <- Hext, splitext_append. reflexivity.
Qed.

End Input.

(** ** The time of day, from the row to the ledger *)


Section TimeOfDay.
Import AndroMoneyReader.
















End TimeOfDay.

(** ** Columns that the ledger does not show *)

Section Unused.
Import AndroMoneyReader.

(** The row parser with another text in one column. *)
Ltac parse_insert row i Hlen :=
  unfold parse, getitem;
  rewrite list_lookup_insert_eq by lia;
  rewrite !list_lookup_insert_ne by lia;
  let old := fresh "old" in
  destruct (lookup_lt_is_Some_2 row i Hlen) as [old ->];
  repeat
    match goal with
    | |- (match ?m with Some _ => _ | None => _ end ≫= _) = _ =>
        destruct m; simpl; [|reflexivity]
    | |- (?m ≫= _) = _ => destruct m; simpl; [|reflexivity]
    end;
  reflexivity.

Lemma parse_periodic (row : list string) (v : string) :
  (9 < length row)%nat →
  parse (<[9%nat := v]> row) = (r ← parse row; Return (set_periodic v r)).
Proof. intros Hlen. parse_insert row 9%nat Hlen. Qed.

Lemma parse_from_account (row : list string) (v : string) :
  (6 < length row)%nat →
  parse (<[6%nat := v]> row) = (r ← parse row; Return (result.set_from_account v r)).
Proof. intros Hlen. parse_insert row 6%nat Hlen. Qed.

Lemma parse_to_account (row : list string) (v : string) :
  (7 < length row)%nat →
  parse (<[7%nat := v]> row) = (r ← parse row; Return (result.set_to_account v r)).
Proof. intros Hlen. parse_insert row 7%nat Hlen. Qed.

Lemma same_step_but_periodic_refl (s : step) : same_step_but_periodic s s.
Proof. destruct s as [[] c| |e]; simpl; auto. Qed.

(** The body of [__next__] on two dictionaries that the parser makes of the
    same row, when the second is the first with a field set that the body
    does not read or writes over. *)
Lemma body_unused (curr : datetime) (row1 row2 : list string) :
  unused_variant row1 row2 →
  same_step_but_periodic (body curr row1) (body curr row2).
Proof.
  intros [(v & ->) | [(v & -> & Hcat) | (v & c & -> & Hcat & H1 & H2 & H3)]].
  - destruct (decide (9 < length row1)%nat) as [Hlen|Hlen].
    2:{ rewrite list_insert_ge by lia. apply same_step_but_periodic_refl. }
    unfold body. rewrite (parse_periodic row1 v Hlen).
    destruct (parse row1) as [r|e]; simpl; [|exact I].
    destruct (status_ok (result.status r)); simpl; [|exact I].
    destruct (String.eqb (result.category r) "SYSTEM").
    + destruct (String.eqb _ "INIT_AMOUNT"); simpl; [|exact I].
      destruct (float (result.amount r)) as [x|e]; [|exact I].
      destruct (le_1e_6 x); simpl; [exact I | split; reflexivity].
    + destruct (String.eqb (result.category r) "Transfer"); [split; reflexivity|].
      destruct (String.eqb (result.category r) "Income"); split; reflexivity.
  - destruct (decide (6 < length row1)%nat) as [Hlen|Hlen].
    2:{ rewrite list_insert_ge by lia. apply same_step_but_periodic_refl. }
    pose proof (parse_from_account row1 v Hlen) as Hp2.
    destruct (parse row1) as [r|e] eqn:Hp1; simpl in Hp2.
    2:{ rewrite (body_parse_error curr _ e Hp1), (body_parse_error curr _ e Hp2). exact I. }
    destruct (parse_fields _ _ Hp1) as (_ & Hc & (sub & _ & Hsub) & _).
    destruct (status_ok (result.status r)) eqn:Hst.
    2:{ rewrite (body_bad_status curr _ r Hp1 Hst), (body_bad_status curr _ _ Hp2 Hst).
        exact I. }
    destruct Hcat as [Hcat|Hcat]; rewrite Hcat in Hc; injection Hc as Hc; symmetry in Hc.
    + destruct (decide (result.sub_category r = Some "INIT_AMOUNT")) as [Hi|Hi].
      * rewrite (body_system curr _ r Hp1 Hst Hc Hi), (body_system curr _ _ Hp2 Hst Hc Hi).
        simpl. destruct (float (result.amount r)) as [x|e]; [|exact I].
        destruct (le_1e_6 x); [exact I|]. split; reflexivity.
      * rewrite (body_system_wrong_sub curr _ r Hp1 Hst Hc Hi),
                (body_system_wrong_sub curr _ _ Hp2 Hst Hc Hi).
        exact I.
    + rewrite (body_income curr _ r Hp1 Hst sub Hc Hsub),
              (body_income curr _ _ Hp2 Hst sub Hc Hsub).
      split; reflexivity.
  - destruct (decide (7 < length row1)%nat) as [Hlen|Hlen].
    2:{ rewrite list_insert_ge by lia. apply same_step_but_periodic_refl. }
    pose proof (parse_to_account row1 v Hlen) as Hp2.
    destruct (parse row1) as [r|e] eqn:Hp1; simpl in Hp2.
    2:{ rewrite (body_parse_error curr _ e Hp1), (body_parse_error curr _ e Hp2). exact I. }
    destruct (parse_fields _ _ Hp1) as (_ & Hc & (sub & _ & Hsub) & _).
    destruct (status_ok (result.status r)) eqn:Hst.
    2:{ rewrite (body_bad_status curr _ r Hp1 Hst), (body_bad_status curr _ _ Hp2 Hst).
        exact I. }
    rewrite Hcat in Hc. injection Hc as ->.
    rewrite (body_expense curr _ r Hp1 Hst sub H1 H2 H3 Hsub),
            (body_expense curr _ _ Hp2 Hst sub H1 H2 H3 Hsub).
    split; reflexivity.
Qed.

(** The formatter does not read the periodic flag. *)
Lemma write_row_periodic (writer : LedgerWriter.t) (v : string) (t0 : result.t) :
  write_row writer (set_periodic v t0) = write_row writer t0.
Proof. reflexivity. Qed.

Lemma ledger_of_rows_unused (writer : LedgerWriter.t)
    (rows1 rows2 : list (list string)) (curr : datetime) (file : string) :
  Forall2 unused_variant rows1 rows2 →
  (ledger_of_rows writer rows1 curr file).2 = (ledger_of_rows writer rows2 curr file).2
  ∧ raised (ledger_of_rows writer rows1 curr file).1
    = raised (ledger_of_rows writer rows2 curr file).1.
Proof.
  intros H. revert curr file.
  induction H as [|row1 row2 rows1 rows2 Hrow _ IH]; intros curr file; [auto|].
  simpl. pose proof (body_unused curr row1 row2 Hrow) as Hsame.
  destruct (body curr row1) as [t1 c1| |e1], (body curr row2) as [t2 c2| |e2];
    try contradiction; simpl in *.
  - destruct Hsame as [-> <-]. rewrite write_row_periodic.
    destruct (write_row writer t1 file) as [[[]|e] file']; [apply IH | auto].
  - apply IH.
  - auto.
Qed.

(** X15. Three columns of the input never show in the ledger: the periodic
    flag (column 9) of any row, the from-account (column 6) of an opening
    balance or an income, which is replaced by ["Opening Balances"] or by the
    sub-category, and the to-account (column 7) of an expense, which is
    replaced by the category and sub-category.  Two streams that differ
    there only give the same ledger and fail together. *)
Theorem X15_unused_columns (rows1 rows2 : list (list string)) (curr : datetime) :
  Forall2 unused_variant rows1 rows2 →
  ∃ out1 out2 file,
    generateLedger (mk rows1 curr) = Some (out1, file)
    ∧ generateLedger (mk rows2 curr) = Some (out2, file)
    ∧ raised out1 = raised out2.
Proof.
  intros H. rewrite !generateLedger_rows.
  destruct (ledger_of_rows_unused LedgerWriter.__init__ rows1 rows2 curr "" H)
    as [Hfile Hraised].
  destruct (ledger_of_rows _ rows1 curr "") as [out1 file1],
           (ledger_of_rows _ rows2 curr "") as [out2 file2].
  simpl in *. subst file2. eauto 6.
Qed.

End Unused.

(** ** The date, from the row to the title line *)

Section TitleDate.
Import AndroMoneyReader.












End TitleDate.

(** ** The further properties on the sample input *)

Lemma X1_witness :
  AndroMoneyReader.status_ok (result.status lunch_returned) = true
  ∧ result.sub_category lunch_returned = None
  ∧ (result.category lunch_returned = "SYSTEM"
     ∨ result.category lunch_returned = "Transfer"
     ∨ result.category lunch_returned = "Income"
     ∨ result.category lunch_returned = "Expense").
Proof.
  apply (X1_returned_invariant
           (AndroMoneyReader.mk [opening_row "0.0000001"; lunch_row "Bob"] init_date)
           lunch_returned (AndroMoneyReader.mk [] bob_date)).
  reflexivity.
Defined.

Lemma X2_witness :
  ∃ row, row ∈ [opening_row "0.0000001"; lunch_row "Bob"]
    ∧ row !! 1%nat = Some "USD"
    ∧ row !! 2%nat = Some "12.50"
    ∧ row !! 8%nat = Some ""
    ∧ row !! 9%nat = Some ""
    ∧ row !! 10%nat = Some ""
    ∧ row !! 12%nat = Some "123".
Proof.
  apply (X2_columns_passed_through
           (AndroMoneyReader.mk [opening_row "0.0000001"; lunch_row "Bob"] init_date)
           lunch_returned (AndroMoneyReader.mk [] bob_date)).
  reflexivity.
Defined.

(** A thousand nested calls are not enough for twelve hundred rows that are
    passed over: the run fails before the expense that follows them is
    written. *)
Lemma recursion_limit_reached :
  generateLedger_within 1000
    (AndroMoneyReader.mk (repeat (opening_row "0") 1200 ++ [lunch_row "Bob"]) init_date)
  = Some (RecursionError, "").
Proof. vm_compute. reflexivity. Qed.

Lemma X6_witness :
  generateLedger_within 5
    (AndroMoneyReader.mk
       ([lunch_row "Bob"] ++ opening_row "0.0000001" :: [transfer_row "Bob"]) init_date)
  = generateLedger_within 5
      (AndroMoneyReader.mk ([lunch_row "Bob"] ++ [transfer_row "Bob"]) init_date).
Proof.
  apply (X6_skipped_row_leaves_no_trace 5 [lunch_row "Bob"] [transfer_row "Bob"]
           (opening_row "0.0000001") init_date init_date).
  - reflexivity.
  - vm_compute. lia.
Defined.

Lemma X7_witness :
  ∃ how1 file1,
    generateLedger_within 5
      (AndroMoneyReader.mk [opening_row "0.0000001"; lunch_row "Bob"] init_date)
    = Some (how1, file1)
    ∧ match how1 with
      | Finished =>
          ∃ how2 file2,
            generateLedger_within 5
              (AndroMoneyReader.mk [opening_row "1000"]
                 (curr_date_after [opening_row "0.0000001"; lunch_row "Bob"] init_date))
            = Some (how2, file2)
            ∧ generateLedger_within 5
                (AndroMoneyReader.mk
                   ([opening_row "0.0000001"; lunch_row "Bob"] ++ [opening_row "1000"])
                   init_date)
              = Some (how2, file1 +:+ file2)
      | _ =>
          generateLedger_within 5
            (AndroMoneyReader.mk
               ([opening_row "0.0000001"; lunch_row "Bob"] ++ [opening_row "1000"])
               init_date)
          = Some (how1, file1)
      end.
Proof.
  apply (X7_run_of_concatenation 5 [opening_row "0.0000001"; lunch_row "Bob"]
           [opening_row "1000"] init_date).
  vm_compute. lia.
Defined.

Lemma X8_witness :
  AndroMoneyReader.body init_date (opening_row "-5") = AndroMoneyReader.Again
  ∨ (∃ e, AndroMoneyReader.body init_date (opening_row "-5") = AndroMoneyReader.Fail e
          ∧ ParseError e = true)
  ∨ (float "-5" = Return nan
     ∧ ∃ t0, AndroMoneyReader.body init_date (opening_row "-5")
             = AndroMoneyReader.Yield t0 init_date).
Proof.
  apply (X8_negative_opening_balance init_date (opening_row "-5") (opening_parsed "-5") "5");
    reflexivity.
Defined.

Lemma X11_witness :
  (∃ root, "export.csv" = root +:+ ".csv" ∧ root ≠ "")
  ∧ (Z.to_nat 2 ≤ length sample_file)%nat
  ∧ [lunch_row "Bob"] = drop (Z.to_nat 2) sample_file
  ∧ (2 <= 0 → [lunch_row "Bob"] = sample_file)
  ∧ ∀ file_rows',
      (length file_rows' < Z.to_nat 2)%nat →
      parseInput file_rows' "export.csv" 2
      = inl (RuntimeError "generator raised StopIteration").
Proof.
  apply (X11_parseInput_rows sample_file "export.csv" 2 [lunch_row "Bob"]).
  reflexivity.
Defined.

Lemma X12_witness :
  ∃ root how file,
    "export.csv" = root +:+ ".csv"
    ∧ main sample_file (sample_args "export.csv") = (root +:+ ".ledger", Some how, file)
    ∧ root +:+ ".ledger" ≠ "export.csv".
Proof.
  apply (X12_default_output_path sample_file (sample_args "export.csv") [lunch_row "Bob"]);
    reflexivity.
Defined.

Lemma X13_witness :
  ∃ msg,
    main sample_file (sample_args "book.ledger")
    = ("book.ledger", Some (inl (Exn (ValueError msg))), "").
Proof.
  apply (X13_ledger_input_is_emptied sample_file (sample_args "book.ledger")); reflexivity.
Defined.


Lemma X15_witness :
  ∃ out1 out2 file,
    generateLedger
      (AndroMoneyReader.mk [lunch_row "Bob"; opening_row "1000"] init_date)
    = Some (out1, file)
    ∧ generateLedger
        (AndroMoneyReader.mk
           [<[7%nat := "Groceries"]> (lunch_row "Bob");
            <[6%nat := "Savings"]> (opening_row "1000")] init_date)
      = Some (out2, file)
    ∧ raised out1 = raised out2.
Proof.
  apply X15_unused_columns.
  constructor; [|constructor; [|constructor]].
  - right. right. exists "Groceries", "Food".
    split; [reflexivity|]. split; [reflexivity|]. repeat split; discriminate.
  - right. left. exists "Savings". split; [reflexivity|]. left. reflexivity.
Defined.

